(** * Playback performance suite ([src/media/playbackperfTest.js])

    A shallow embedding of [PlaybackperfTest]: the suite builder with its
    [tests] array, the [PerfTestUtil_] helper and the three test generators
    with the callbacks they register.

    Conventions of the embedding.
    - JavaScript numbers are exact rationals extended with [NaN] and the two
      infinities.  Every constant of the suite (0.25 .. 2, 1, 15, 25, 0.45)
      and every frame count is such a rational; the rounding of a quotient to
      a double is not modelled.
    - The [tests] array is a list; a test object is referred to by its
      position in that list, which is where [createPerfTest] pushes it, so
      that the later writes to [test.prototype.title] and
      [test.prototype.start] reach the object held by the array.
    - Closures are kept as data: the code they run together with the
      variables they capture ([StartFn], [Handler]).
    - Calls on the runner and on the media host objects are recorded, in
      order, in one list of [Call]s; the video element is a record of the
      attributes the suite reads and writes.
    - The media table [Media.*], [util.compareResolutions], the runner, the
      [VideoPerformanceMetrics] wrapper and [setupMse] live in other files
      of the repository: the table and the comparison are section
      variables, the others appear through the calls made on them. *)

From Stdlib Require Import ZArith QArith String Ascii List DecimalString Lia.
From stdpp Require Import base list strings.

Local Open Scope string_scope.
Local Open Scope list_scope.

(** ** Numbers and values *)

Inductive number : Type :=
| Fin (q : Q)
| NaN
| Infinity
| NegInfinity.

Definition num_of_Z (z : Z) : number := Fin (inject_Z z).

(** [a <= b] on numbers: any comparison with [NaN] is false. *)
Definition num_le (a b : number) : bool :=
  match a, b with
  | NaN, _ | _, NaN => false
  | NegInfinity, _ => true
  | _, Infinity => true
  | Fin x, Fin y => Qle_bool x y
  | _, _ => false
  end.

(** [a < b] on numbers. *)
Definition num_lt (a b : number) : bool :=
  match a, b with
  | NaN, _ | _, NaN => false
  | Fin x, Fin y => negb (Qle_bool y x)
  | NegInfinity, NegInfinity => false
  | NegInfinity, _ => true
  | Infinity, _ => false
  | Fin _, Infinity => true
  | Fin _, NegInfinity => false
  end.

(** [a > b] and [a >= b] are the mirrored comparisons. *)
Definition num_gt (a b : number) : bool := num_lt b a.
Definition num_ge (a b : number) : bool := num_le b a.

(** [a / b].  A finite number divided by zero is an infinity of the sign of
    the dividend, and [0 / 0] is [NaN]; nothing is raised.  The quotient of
    two finite numbers is the exact rational: the rounding to a double that
    JavaScript makes is left out, which can change a comparison with a
    constant only for frame counts of some 15 digits. *)
Definition num_div (a b : number) : number :=
  match a, b with
  | NaN, _ | _, NaN => NaN
  | Fin x, Fin y =>
      if Qeq_bool y 0 then
        if Qeq_bool x 0 then NaN
        else if Qle_bool 0 x then Infinity else NegInfinity
      else Fin (x / y)
  | Fin _, _ => Fin 0
  | Infinity, Fin y => if Qle_bool 0 y then Infinity else NegInfinity
  | NegInfinity, Fin y => if Qle_bool 0 y then NegInfinity else Infinity
  | _, _ => NaN
  end.

Definition Z_to_string (z : Z) : string := NilZero.string_of_int (Z.to_int z).

Definition digit_to_string (d : Z) : string :=
  String (ascii_of_nat (48 + Z.to_nat d)) EmptyString.

(** The decimal digits of [r / d] after the point, for [0 <= r < d]. *)
Fixpoint frac_digits (fuel : nat) (r d : Z) : string :=
  match fuel with
  | O => EmptyString
  | S fuel' =>
      if (r =? 0)%Z then EmptyString
      else digit_to_string (10 * r / d) +:+ frac_digits fuel' (10 * r mod d) d
  end.

(** Number to string: the decimal expansion, which is what JavaScript prints
    for a number whose expansion is short ("30", "0.25", "1.5").  Left out
    are the exponent notation JavaScript uses from 1e21 on and below 1e-6,
    and its rounding to the shortest digits that read back as the same
    double; the expansion is cut after 17 fractional digits. *)
Definition number_to_string (n : number) : string :=
  match n with
  | NaN => "NaN"
  | Infinity => "Infinity"
  | NegInfinity => "-Infinity"
  | Fin q =>
      let q' := Qred q in
      let a := Z.abs (Qnum q') in
      let d := Zpos (Qden q') in
      let body :=
        Z_to_string (a / d) +:+
        (if (a mod d =? 0)%Z then EmptyString
         else "." +:+ frac_digits 17 (a mod d) d) in
      if (Qnum q' <? 0)%Z then "-" +:+ body else body
  end.

Inductive value : Type :=
| undefined
| null
| VBool (b : bool)
| VNumber (n : number)
| VString (s : string).

Definition typeof (v : value) : string :=
  match v with
  | undefined => "undefined"
  | null => "object"
  | VBool _ => "boolean"
  | VNumber _ => "number"
  | VString _ => "string"
  end.

Definition to_string (v : value) : string :=
  match v with
  | undefined => "undefined"
  | null => "null"
  | VBool true => "true"
  | VBool false => "false"
  | VNumber n => number_to_string n
  | VString s => s
  end.

(** Truthiness, as used by [||]. *)
Definition to_boolean (v : value) : bool :=
  match v with
  | undefined | null => false
  | VBool b => b
  | VNumber NaN => false
  | VNumber (Fin q) => negb (Qeq_bool q 0)
  | VNumber _ => true
  | VString s => negb (String.eqb s EmptyString)
  end.

(** [a || b] *)
Definition js_or (a b : value) : value := if to_boolean a then a else b.

(** ** Media descriptors *)

(** A media stream descriptor of the [Media] table: the three plain fields
    the suite reads and the [get(attr)] accessor. *)
Record Stream : Type := mkStream {
  src : string;
  mimetype : string;
  codec : string;
  get : string -> value
}.

Module VP9.
Record t : Type := mk {
  Webgl144p30fps : Stream;
  Webgl240p30fps : Stream;
  Webgl360p30fps : Stream;
  Webgl480p30fps : Stream;
  Webgl720p30fps : Stream;
  Webgl1080p30fps : Stream;
  Webgl1440p30fps : Stream;
  Webgl2160p30fps : Stream;
  Webgl720p60fps : Stream;
  Webgl1080p60fps : Stream;
  Webgl1440p60fps : Stream;
  Webgl2160p60fps : Stream
}.
End VP9.

Module H264.
Record t : Type := mk {
  Video1MB : Stream;
  Webgl144p15fps : Stream;
  Webgl240p30fps : Stream;
  Webgl360p30fps : Stream;
  Webgl480p30fps : Stream;
  Webgl720p30fps : Stream;
  Webgl1080p30fps : Stream;
  Webgl1440p30fps : Stream;
  Webgl2160p30fps : Stream;
  Webgl720p60fps : Stream;
  Webgl1080p60fps : Stream
}.
End H264.

Module AAC.
Record t : Type := mk {
  Audio1MB : Stream;
  AudioNormal : Stream
}.
End AAC.

(** The part of the global [Media] object the suite reads. *)
Record MediaTable : Type := mkMedia {
  VP9 : VP9.t;
  H264 : H264.t;
  AAC : AAC.t
}.

(** What an out-of-range array read stands for; the [for .. in] loops only
    read at keys of the array. *)
#[global] Instance Stream_inhabited : Inhabited Stream :=
  populate (mkStream EmptyString EmptyString EmptyString (fun _ => undefined)).
#[global] Instance number_inhabited : Inhabited number := populate NaN.

(** ** The video element, the runner and the host calls *)

(** The attributes of the video element the suite reads or writes, and what
    [VideoPerformanceMetrics] reports about it. *)
Record Video : Type := mkVideo {
  paused : bool;
  currentTime : number;
  playbackRate : number;
  hasSrc : bool;
  supportsVideoPerformanceMetrics : bool;
  totalDecodedVideoFrames : Z;
  droppedVideoFrames : Z
}.

(** Calls made on the runner and on the media host, as the code makes
    them. *)
Inductive Call : Type :=
| runner_fail (msg : string)
| runner_succeed
| runner_checkLE (x y : number) (name : string)
| runner_checkEq (x y : number) (name : string)
| runner_updateStatus
| XHRManager_createRequest (url : string) (range : option (number * number))
| xhr_send (url : string)
| new_MediaSource
| URL_createObjectURL
| ms_addSourceBuffer (mime : string)
| ms_endOfStream
| sb_appendBuffer (mime : string)
| setupMse (videoStream audioStream : Stream).

(** What a [PerfTestUtil_] can reach: the video, the [status] of the test
    being run and the calls made so far. *)
Record World : Type := mkWorld {
  video : Video;
  status : option string;
  calls : list Call
}.

(** ** State passing *)

Definition State (S A : Type) : Type := S -> A * S.

Definition ret {S A : Type} (a : A) : State S A := fun s => (a, s).

Definition bind {S A B : Type} (m : State S A) (k : A -> State S B) : State S B :=
  fun s => let '(a, s') := m s in k a s'.

Definition exec {S A : Type} (m : State S A) (s : S) : S := snd (m s).

Declare Scope state_scope.
Delimit Scope state_scope with state.
Notation "x <-- m ;; k" := (bind m (fun x => k))
  (at level 100, m at next level, right associativity) : state_scope.
Notation "m ;; k" := (bind m (fun _ => k))
  (at level 100, right associativity) : state_scope.
Local Open Scope state_scope.

(** Modelled from the spec: the runner and the media host objects are not
    part of this file.  The spec has every failure "reported synchronously
    through the runner's fail/checkLE calls"; a call is recorded with its
    arguments, after those made before it.  That a method of the runner
    returns to its caller, also when it reports a failure, is taken for
    granted here: neither the source nor the spec settles it. *)
Definition call (c : Call) : State World unit :=
  fun w => (tt, mkWorld (video w) (status w) (calls w ++ [c])).

Definition set_status (s : string) : State World unit :=
  fun w => (tt, mkWorld (video w) (Some s) (calls w)).

Definition set_video (f : Video -> Video) : State World unit :=
  fun w => (tt, mkWorld (f (video w)) (status w) (calls w)).

Definition video_play : State World unit :=
  set_video (fun v => mkVideo false (currentTime v) (playbackRate v) (hasSrc v)
    (supportsVideoPerformanceMetrics v) (totalDecodedVideoFrames v)
    (droppedVideoFrames v)).

Definition video_pause : State World unit :=
  set_video (fun v => mkVideo true (currentTime v) (playbackRate v) (hasSrc v)
    (supportsVideoPerformanceMetrics v) (totalDecodedVideoFrames v)
    (droppedVideoFrames v)).

Definition video_set_playbackRate (r : number) : State World unit :=
  set_video (fun v => mkVideo (paused v) (currentTime v) r (hasSrc v)
    (supportsVideoPerformanceMetrics v) (totalDecodedVideoFrames v)
    (droppedVideoFrames v)).

Definition video_set_src : State World unit :=
  set_video (fun v => mkVideo (paused v) (currentTime v) (playbackRate v) true
    (supportsVideoPerformanceMetrics v) (totalDecodedVideoFrames v)
    (droppedVideoFrames v)).

(** ** [PerfTestUtil_] *)

Definition newline : string := String (ascii_of_nat 10) EmptyString.

Definition unsupported_message : string :=
  "UserAgent needs to support" +:+ newline +:+
  "            'video.getVideoPlaybackQuality' or the combined" +:+ newline +:+
  "            'video.webkitDecodedFrameCount'" +:+ newline +:+
  "            and 'video.webkitDroppedFrameCount' to execute this test.".

Definition getVideoPerfMetrics : State World unit :=
  fun w =>
    if negb (supportsVideoPerformanceMetrics (video w))
    then call (runner_fail unsupported_message) w
    else (tt, w).

(** [new PerfTestUtil_(test, runner, video)] *)
Definition new_PerfTestUtil_ : State World unit := getVideoPerfMetrics.

Definition getTotalDecodedFrames : State World number :=
  fun w => (num_of_Z (totalDecodedVideoFrames (video w)), w).

Definition getTotalDroppedFrames : State World number :=
  fun w => (num_of_Z (droppedVideoFrames (video w)), w).

Definition updateVideoPerfMetricsStatus : State World unit :=
  dropped <-- getTotalDroppedFrames ;;
  decoded <-- getTotalDecodedFrames ;;
  set_status ("(" +:+ number_to_string dropped +:+ "/" +:+
              number_to_string decoded +:+ ")") ;;
  call runner_updateStatus.

Definition assertAtLeastOneFrameDecoded : State World unit :=
  decoded <-- getTotalDecodedFrames ;;
  if num_le decoded (Fin 0) then
    set_status "Fail" ;;
    call (runner_fail "UserAgent was unable to render any frames.")
  else ret tt.

Definition assertMaxDroppedFrames (maxDroppedFrames : number) : State World unit :=
  dropped <-- getTotalDroppedFrames ;;
  call (runner_checkLE dropped maxDroppedFrames "Total dropped frames").

Definition assertMaxDroppedFramesRatio (maxRatio : number) : State World unit :=
  dropped <-- getTotalDroppedFrames ;;
  decoded <-- getTotalDecodedFrames ;;
  call (runner_checkLE (num_div dropped decoded) maxRatio
          "Total dropped frames / total decoded frames").

(** ** Test descriptors *)

(** The [start] function of a test, as the generator that builds it together
    with the variables it captures. *)
Inductive StartFn : Type :=
| TotalVideoFrames_start (videoStream : Stream) (frames : number)
| FrameDrop_start (videoStream1 videoStream2 : Stream)
| PlaybackPerf_start (videoStream : Stream) (playbackRate : number)
    (stopPlayback : Video -> bool) (assertTest : State World unit).

(** The fields the suite puts on the prototype of a test.  [mandatory],
    [title] and [start] are [None] while the field is not set. *)
Record Test : Type := mkTest {
  name : string;
  index : nat;
  passes : Z;
  failures : Z;
  timeouts : Z;
  category : value;
  mandatory : option value;
  title : option string;
  start : option StartFn
}.

(** Modelled from the spec: [createTest(name)] is defined outside this file.
    The spec has a test descriptor as "a named, categorized unit with mutable
    counters", "an optional mandatory flag" and a [start] entry point, and
    lists as its prototype fields the ones this file writes.  The object
    [createTest] returns is taken to carry its name and none of these
    fields: [mandatory], [title] and [start] are unset, and [index], the
    counters and [category] hold placeholders, which [createPerfTest]
    overwrites before anything reads them. *)
Definition createTest (name : string) : Test :=
  mkTest name 0 0 0 0 undefined None None None.

Definition set_index (i : nat) (t : Test) : Test :=
  mkTest (name t) i (passes t) (failures t) (timeouts t) (category t)
    (mandatory t) (title t) (start t).

Definition set_passes (n : Z) (t : Test) : Test :=
  mkTest (name t) (index t) n (failures t) (timeouts t) (category t)
    (mandatory t) (title t) (start t).

Definition set_failures (n : Z) (t : Test) : Test :=
  mkTest (name t) (index t) (passes t) n (timeouts t) (category t)
    (mandatory t) (title t) (start t).

Definition set_timeouts (n : Z) (t : Test) : Test :=
  mkTest (name t) (index t) (passes t) (failures t) n (category t)
    (mandatory t) (title t) (start t).

Definition set_category (c : value) (t : Test) : Test :=
  mkTest (name t) (index t) (passes t) (failures t) (timeouts t) c
    (mandatory t) (title t) (start t).

Definition set_mandatory (m : value) (t : Test) : Test :=
  mkTest (name t) (index t) (passes t) (failures t) (timeouts t) (category t)
    (Some m) (title t) (start t).

Definition set_title (s : string) (t : Test) : Test :=
  mkTest (name t) (index t) (passes t) (failures t) (timeouts t) (category t)
    (mandatory t) (Some s) (start t).

Definition set_start (f : StartFn) (t : Test) : Test :=
  mkTest (name t) (index t) (passes t) (failures t) (timeouts t) (category t)
    (mandatory t) (title t) (Some f).

(** [test.prototype.<field> = ..] for the test object at position [test] of
    the array. *)
Definition prototype_set (test : nat) (f : Test -> Test) : State (list Test) unit :=
  fun tests => (tt, alter f test tests).

(** The writes of [createPerfTest] on the prototype of the object [t] that
    [createTest] has returned, [tests_length] being [tests.length]. *)
Definition perfTest_fields (tests_length : nat) (category mandatory : value)
    (t : Test) : Test :=
  let t := set_index tests_length t in
  let t := set_passes 0 t in
  let t := set_failures 0 t in
  let t := set_timeouts 0 t in
  let t := set_category (js_or category (VString "Playback Performance")) t in
  if String.eqb (typeof mandatory) "boolean"
  then set_mandatory mandatory t
  else t.

Definition createPerfTest (name : string) (category mandatory : value)
  : State (list Test) nat :=
  fun tests =>
    let t := createTest name in
    let t := perfTest_fields (length tests) category mandatory t in
    (length tests, tests ++ [t]).

(** [for (var k in arr) body], over the keys [0 .. arr.length - 1]. *)
Fixpoint for_keys {S K : Type} (keys : list K) (body : K -> State S unit)
  : State S unit :=
  match keys with
  | [] => ret tt
  | k :: keys' => body k ;; for_keys keys' body
  end.

Definition for_in {S A : Type} (arr : list A) (body : nat -> State S unit)
  : State S unit :=
  for_keys (seq 0 (length arr)) body.

Definition playbackSpeeds : list number :=
  [Fin 0.25; Fin 0.5; Fin 0.75; Fin 1; Fin 1.25; Fin 1.5; Fin 1.75; Fin 2].

Definition shouldStopPlayback (video : Video) : bool :=
  negb (paused video) && num_ge (currentTime video) (Fin 15).

Definition defaultTestAssertion : State World unit :=
  assertAtLeastOneFrameDecoded ;;
  assertMaxDroppedFrames (Fin 1).

Definition HFRHighSpeedPlaybackTestAssertion : State World unit :=
  assertAtLeastOneFrameDecoded ;;
  assertMaxDroppedFramesRatio (Fin 0.45).

Definition TestBase_timeout : number := Fin 100000.

(** The object the suite returns. *)
Record Suite : Type := mkSuite {
  tests : list Test;
  info : string;
  fields : list string;
  viewType : string
}.

(** ** The generators and the suite *)

Section Suite.

(** The global [Media] table and [util.compareResolutions]. *)
Variable Media : MediaTable.
Variable compareResolutions : value -> value -> number.

(** [window.MediaSource] is defined, and [MediaSource.prototype.version]. *)
Variable window_MediaSource : bool.
Variable MediaSource_version : string.

Definition createTotalVideoFramesValidationTest (videoStream : Stream)
    (frames : number) : State (list Test) unit :=
  test <-- createPerfTest "TotalVideoFrames" (VString "Media Playback Quality")
             undefined ;;
  prototype_set test (set_title "TotalVideoFrames Validation") ;;
  prototype_set test (set_start (TotalVideoFrames_start videoStream frames)).

Definition createFrameDropValidationTest (videoStream1 videoStream2 : Stream)
  : State (list Test) unit :=
  test <-- createPerfTest "FrameDrop" (VString "Media Playback Quality")
             undefined ;;
  prototype_set test (set_title "Frame Drop Validation") ;;
  prototype_set test (set_start (FrameDrop_start videoStream1 videoStream2)).

(** H264 tests that are greater than 1080p are optional. *)
Definition isOptionalPlayBackPerfStream (videoStream : Stream) : bool :=
  String.eqb (codec videoStream) "H264" &&
  num_gt (compareResolutions (get videoStream "resolution") (VString "1080p"))
         (Fin 0).

Definition createPlaybackPerfTest (videoStream : Stream) (playbackRate : number)
    (category : value) (stopPlayback : Video -> bool)
    (assertTest : State World unit) (mandatory : value)
  : State (list Test) unit :=
  let mandatory :=
    if negb (String.eqb (typeof mandatory) "undefined")
    then mandatory
    else VBool (negb (isOptionalPlayBackPerfStream videoStream)) in
  test <-- createPerfTest
             ((((((((("PlaybackPerf" +:+ ".") +:+ codec videoStream) +:+ ".")
                +:+ to_string (get videoStream "resolution"))
                +:+ to_string (get videoStream "fps")) +:+ "@")
                +:+ number_to_string playbackRate) +:+ "X"))
             category mandatory ;;
  prototype_set test (set_title "Playback performance test") ;;
  prototype_set test
    (set_start (PlaybackPerf_start videoStream playbackRate stopPlayback
                  assertTest)).

(** The test object a call of [createPlaybackPerfTest] leaves at position
    [idx] of the array. *)
Definition PlaybackPerf_descriptor (idx : nat) (videoStream : Stream)
    (playbackRate : number) (category : value) (stopPlayback : Video -> bool)
    (assertTest : State World unit) (mandatory : value) : Test :=
  let mandatory :=
    if negb (String.eqb (typeof mandatory) "undefined")
    then mandatory
    else VBool (negb (isOptionalPlayBackPerfStream videoStream)) in
  mkTest
    ((((((((("PlaybackPerf" +:+ ".") +:+ codec videoStream) +:+ ".")
       +:+ to_string (get videoStream "resolution"))
       +:+ to_string (get videoStream "fps")) +:+ "@")
       +:+ number_to_string playbackRate) +:+ "X"))
    idx 0 0 0
    (js_or category (VString "Playback Performance"))
    (if String.eqb (typeof mandatory) "boolean" then Some mandatory else None)
    (Some "Playback performance test")
    (Some (PlaybackPerf_start videoStream playbackRate stopPlayback assertTest)).

Definition mediaFormats : list Stream := [
  VP9.Webgl144p30fps (VP9 Media);
  VP9.Webgl240p30fps (VP9 Media);
  VP9.Webgl360p30fps (VP9 Media);
  VP9.Webgl480p30fps (VP9 Media);
  VP9.Webgl720p30fps (VP9 Media);
  VP9.Webgl1080p30fps (VP9 Media);
  VP9.Webgl1440p30fps (VP9 Media);
  VP9.Webgl2160p30fps (VP9 Media);
  H264.Webgl144p15fps (H264 Media);
  H264.Webgl240p30fps (H264 Media);
  H264.Webgl360p30fps (H264 Media);
  H264.Webgl480p30fps (H264 Media);
  H264.Webgl720p30fps (H264 Media);
  H264.Webgl1080p30fps (H264 Media);
  H264.Webgl1440p30fps (H264 Media);
  H264.Webgl2160p30fps (H264 Media)
].

Definition mediaFormatsHfr : list Stream := [
  VP9.Webgl720p60fps (VP9 Media);
  VP9.Webgl1080p60fps (VP9 Media);
  VP9.Webgl1440p60fps (VP9 Media);
  VP9.Webgl2160p60fps (VP9 Media);
  H264.Webgl720p60fps (H264 Media);
  H264.Webgl1080p60fps (H264 Media)
].

(** The loop commented [// SFR.] *)
Definition sfr_loop : State (list Test) unit :=
  for_in playbackSpeeds (fun s =>
    for_in mediaFormats (fun formatIdx =>
      createPlaybackPerfTest
        (mediaFormats !!! formatIdx)
        (playbackSpeeds !!! s)
        (VString "Playback Performance")
        shouldStopPlayback
        defaultTestAssertion
        undefined)).

(** The loop commented [// HFR.] *)
Definition hfr_loop : State (list Test) unit :=
  for_in playbackSpeeds (fun s =>
    for_in mediaFormatsHfr (fun formatIdx =>
      createPlaybackPerfTest
        (mediaFormatsHfr !!! formatIdx)
        (playbackSpeeds !!! s)
        (VString "HFR Playback Performance")
        shouldStopPlayback
        (if num_le (playbackSpeeds !!! s) (Fin 1)
         then defaultTestAssertion else HFRHighSpeedPlaybackTestAssertion)
        undefined)).

Definition build_tests : State (list Test) unit :=
  createTotalVideoFramesValidationTest (H264.Video1MB (H264 Media)) (Fin 25) ;;
  createFrameDropValidationTest
    (H264.Webgl1080p60fps (H264 Media)) (VP9.Webgl2160p60fps (VP9 Media)) ;;
  sfr_loop ;;
  hfr_loop.

Definition PlaybackperfTest : Suite :=
  let webkitPrefix :=
    match String.index 0 "webkit" MediaSource_version with
    | Some _ => true
    | None => false
    end in
  let info := "No MSE Support!" in
  let info :=
    if window_MediaSource
    then "webkit prefix: " +:+ to_string (VBool webkitPrefix)
    else info in
  let info :=
    info +:+
    ((" | Default Timeout: " +:+ number_to_string TestBase_timeout) +:+ "ms") in
  mkSuite (exec build_tests []) info ["passes"; "failures"; "timeouts"]
    "expanded-test-status".

(** ** Running a test: callbacks and events *)

Inductive Target : Type :=
| on_video
| on_mediaSource
| on_videoSb
| on_videoXhr
| on_audioXhr.

Definition Target_eqb (a b : Target) : bool :=
  match a, b with
  | on_video, on_video | on_mediaSource, on_mediaSource
  | on_videoSb, on_videoSb | on_videoXhr, on_videoXhr
  | on_audioXhr, on_audioXhr => true
  | _, _ => false
  end.

(** The callbacks the three [start] functions create, with the variables
    each one captures. *)
Inductive Handler : Type :=
| TotalVideoFrames_sourceopen (videoStream audioStream : Stream)
| TotalVideoFrames_videoLoaded (frames : number)
| TotalVideoFrames_audioLoaded (videoStream : Stream)
| TotalVideoFrames_updateend (frames : number)
| TotalVideoFrames_ended (frames : number)
| TotalVideoFrames_timeupdate
| FrameDrop_onTimeUpdate (videoStream videoStream2 : Stream)
| PlaybackPerf_onTimeUpdate (stopPlayback : Video -> bool)
    (assertTest : State World unit).

Record Listener : Type := mkListener {
  lid : nat;
  target : Target;
  event : string;
  handler : Handler
}.

(** One run of a test: the world, the registered callbacks, the two source
    buffer variables of the TotalVideoFrames test ([None] while unassigned)
    and the exceptions no one caught. *)
Record Sys : Type := mkSys {
  world : World;
  listeners : list Listener;
  next_id : nat;
  videoSb : option string;
  audioSb : option string;
  uncaught : list string
}.

Definition lift {A : Type} (m : State World A) : State Sys A :=
  fun s =>
    let '(a, w) := m (world s) in
    (a, mkSys w (listeners s) (next_id s) (videoSb s) (audioSb s) (uncaught s)).

Definition addEventListener (t : Target) (ev : string) (h : Handler)
  : State Sys unit :=
  fun s =>
    (tt, mkSys (world s) (listeners s ++ [mkListener (next_id s) t ev h])
           (S (next_id s)) (videoSb s) (audioSb s) (uncaught s)).

(** Removing the callback whose identity is [id]. *)
Definition removeEventListener (id : nat) : State Sys unit :=
  fun s =>
    (tt, mkSys (world s)
           (filter (fun l => lid l ≠ id) (listeners s))
           (next_id s) (videoSb s) (audioSb s) (uncaught s)).

Definition set_videoSb (mime : string) : State Sys unit :=
  fun s =>
    (tt, mkSys (world s) (listeners s) (next_id s) (Some mime) (audioSb s)
           (uncaught s)).

Definition set_audioSb (mime : string) : State Sys unit :=
  fun s =>
    (tt, mkSys (world s) (listeners s) (next_id s) (videoSb s) (Some mime)
           (uncaught s)).

Definition throw (e : string) : State Sys unit :=
  fun s =>
    (tt, mkSys (world s) (listeners s) (next_id s) (videoSb s) (audioSb s)
           (uncaught s ++ [e])).

Definition get_video : State Sys Video := fun s => (video (world s), s).

(** [playVideo] of the FrameDrop test; [videoStream2] is captured from
    [createFrameDropValidationTest]. *)
Definition playVideo (videoStream2 videoStream : Stream) : State Sys unit :=
  lift (call (setupMse videoStream (AAC.AudioNormal (AAC Media)))) ;;
  lift (video_set_playbackRate (Fin 2)) ;;
  addEventListener on_video "timeupdate"
    (FrameDrop_onTimeUpdate videoStream videoStream2) ;;
  lift video_play.

(** The body of each callback; [self] is the identity of the callback being
    run, which [onTimeUpdate] passes to [removeEventListener]. *)
Definition run_handler (self : nat) (h : Handler) : State Sys unit :=
  match h with
  | TotalVideoFrames_sourceopen videoStream audioStream =>
      lift (call (ms_addSourceBuffer (mimetype videoStream))) ;;
      set_videoSb (mimetype videoStream) ;;
      lift (call (ms_addSourceBuffer (mimetype audioStream))) ;;
      set_audioSb (mimetype audioStream)
  | TotalVideoFrames_videoLoaded frames =>
      fun s =>
        match videoSb s with
        | None => throw "TypeError" s
        | Some sb =>
            (lift (call (sb_appendBuffer sb)) ;;
             addEventListener on_videoSb "updateend"
               (TotalVideoFrames_updateend frames) ;;
             addEventListener on_video "timeupdate" TotalVideoFrames_timeupdate ;;
             lift video_play) s
        end
  | TotalVideoFrames_audioLoaded videoStream =>
      fun s =>
        match audioSb s with
        | None => throw "TypeError" s
        | Some sb =>
            (lift (call (sb_appendBuffer sb)) ;;
             lift (call (xhr_send (src videoStream)))) s
        end
  | TotalVideoFrames_updateend frames =>
      lift (call ms_endOfStream) ;;
      addEventListener on_video "ended" (TotalVideoFrames_ended frames)
  | TotalVideoFrames_ended frames =>
      decoded <-- lift getTotalDecodedFrames ;;
      lift (call (runner_checkEq decoded frames
                    "playbackQuality.totalVideoFrames")) ;;
      lift (call runner_succeed)
  | TotalVideoFrames_timeupdate =>
      lift updateVideoPerfMetricsStatus
  | FrameDrop_onTimeUpdate videoStream videoStream2 =>
      lift updateVideoPerfMetricsStatus ;;
      video <-- get_video ;;
      if negb (paused video) && num_ge (currentTime video) (Fin 15) then
        removeEventListener self ;;
        lift video_pause ;;
        lift assertAtLeastOneFrameDecoded ;;
        totalDroppedFrames <-- lift getTotalDroppedFrames ;;
        if num_gt totalDroppedFrames (Fin 2) then
          lift (call runner_succeed)
        else if String.eqb (src videoStream2) (src videoStream) then
          lift (call (runner_fail
                        (("UserAgent produced " +:+
                          number_to_string totalDroppedFrames) +:+
                         " dropped frames.")))
        else
          playVideo videoStream2 videoStream2
      else ret tt
  | PlaybackPerf_onTimeUpdate stopPlayback assertTest =>
      lift updateVideoPerfMetricsStatus ;;
      video <-- get_video ;;
      if stopPlayback video then
        removeEventListener self ;;
        lift video_pause ;;
        lift assertTest ;;
        lift (call runner_succeed)
      else ret tt
  end.

(** [test.prototype.start(runner, video)] *)
Definition run_start (f : StartFn) : State Sys unit :=
  match f with
  | TotalVideoFrames_start videoStream frames =>
      let audioStream := AAC.Audio1MB (AAC Media) in
      lift (call new_MediaSource) ;;
      lift new_PerfTestUtil_ ;;
      addEventListener on_mediaSource "sourceopen"
        (TotalVideoFrames_sourceopen videoStream audioStream) ;;
      lift (call URL_createObjectURL) ;;
      lift video_set_src ;;
      lift (call (XHRManager_createRequest (src videoStream) None)) ;;
      addEventListener on_videoXhr "load" (TotalVideoFrames_videoLoaded frames) ;;
      lift (call (XHRManager_createRequest (src audioStream)
                    (Some (Fin 0, Fin 131100)))) ;;
      addEventListener on_audioXhr "load"
        (TotalVideoFrames_audioLoaded videoStream) ;;
      lift (call (xhr_send (src audioStream)))
  | FrameDrop_start videoStream1 videoStream2 =>
      lift new_PerfTestUtil_ ;;
      playVideo videoStream2 videoStream1
  | PlaybackPerf_start videoStream playbackRate stopPlayback assertTest =>
      lift new_PerfTestUtil_ ;;
      lift (call (setupMse videoStream (AAC.AudioNormal (AAC Media)))) ;;
      lift (video_set_playbackRate playbackRate) ;;
      addEventListener on_video "timeupdate"
        (PlaybackPerf_onTimeUpdate stopPlayback assertTest) ;;
      lift video_play
  end.

(** The host fires [ev] on [t]: the callbacks registered for it when the
    event is fired run in the order they were added, except those removed
    in the meantime. *)
Definition dispatch (t : Target) (ev : string) : State Sys unit :=
  fun s =>
    for_keys
      (map lid
         (List.filter (fun l => Target_eqb (target l) t && String.eqb (event l) ev)
            (listeners s)))
      (fun id s' =>
         match List.find (fun l => Nat.eqb (lid l) id) (listeners s') with
         | Some l => run_handler id (handler l) s'
         | None => (tt, s')
         end)
      s.

(** The host advances the video between two events. *)
Definition host_sets_video (v : Video) : State Sys unit :=
  fun s =>
    (tt, mkSys (mkWorld v (status (world s)) (calls (world s))) (listeners s)
           (next_id s) (videoSb s) (audioSb s) (uncaught s)).

(** The host plays on: the current time and the two frame counts move. *)
Definition host_advances (time : number) (decoded dropped : Z) : State Sys unit :=
  lift (set_video (fun v =>
    mkVideo (paused v) time (playbackRate v) (hasSrc v)
      (supportsVideoPerformanceMetrics v) decoded dropped)).

(** A fresh run, before [start] is called. *)
Definition initial_sys (v : Video) : Sys :=
  mkSys (mkWorld v None []) [] 0 None None [].

End Suite.

(** ** Observing a run *)

(** The calls [m] adds to those already made in [w]. *)
Definition new_calls {A : Type} (m : State World A) (w : World) : list Call :=
  drop (length (calls w)) (calls (exec m w)).

Definition sys_new_calls {A : Type} (m : State Sys A) (s : Sys) : list Call :=
  drop (length (calls (world s))) (calls (world (exec m s))).

(** Modelled from the spec: the runner's [checkLE(x, y, name)] is not part of
    this file.  The assertion built on it "fails if dropped frames exceed
    [max] (inclusive boundary at [max])": the check fails when [x > y]. *)
Definition checkLE_fails (x y : number) : bool := num_gt x y.

(** The calls that report a failure of the test to the runner: [fail], and a
    [checkLE] whose check fails. *)
Definition reports_failure (c : Call) : bool :=
  match c with
  | runner_fail _ => true
  | runner_checkLE x y _ => checkLE_fails x y
  | _ => false
  end.

Definition is_fail (c : Call) : bool :=
  match c with
  | runner_fail _ => true
  | _ => false
  end.

Definition is_setupMse (c : Call) : bool :=
  match c with
  | setupMse _ _ => true
  | _ => false
  end.

(** ** A concrete table

    An instance of the [Media] table and of [util.compareResolutions], to run
    the suite on: codec, resolution and frame rate of each entry are read off
    its name, and resolutions compare by their number of lines. *)

Definition sample_stream (codec resolution : string) (fps : Z) : Stream :=
  mkStream
    ("media/" +:+ codec +:+ "-" +:+ resolution +:+ Z_to_string fps +:+ "fps")
    ("video/" +:+ codec)
    codec
    (fun attr =>
       if String.eqb attr "resolution" then VString resolution
       else if String.eqb attr "fps" then VNumber (num_of_Z fps)
       else undefined).

Definition sample_audio (file : string) : Stream :=
  mkStream ("media/" +:+ file) "audio/mp4" "AAC" (fun _ => undefined).

Definition sample_Media : MediaTable :=
  mkMedia
    (VP9.mk
       (sample_stream "VP9" "144p" 30) (sample_stream "VP9" "240p" 30)
       (sample_stream "VP9" "360p" 30) (sample_stream "VP9" "480p" 30)
       (sample_stream "VP9" "720p" 30) (sample_stream "VP9" "1080p" 30)
       (sample_stream "VP9" "1440p" 30) (sample_stream "VP9" "2160p" 30)
       (sample_stream "VP9" "720p" 60) (sample_stream "VP9" "1080p" 60)
       (sample_stream "VP9" "1440p" 60) (sample_stream "VP9" "2160p" 60))
    (H264.mk
       (mkStream "media/car-20120827-85.mp4" "video/H264" "H264"
          (fun _ => undefined))
       (sample_stream "H264" "144p" 15) (sample_stream "H264" "240p" 30)
       (sample_stream "H264" "360p" 30) (sample_stream "H264" "480p" 30)
       (sample_stream "H264" "720p" 30) (sample_stream "H264" "1080p" 30)
       (sample_stream "H264" "1440p" 30) (sample_stream "H264" "2160p" 30)
       (sample_stream "H264" "720p" 60) (sample_stream "H264" "1080p" 60))
    (AAC.mk (sample_audio "audio-1mb.mp4") (sample_audio "audio-normal.mp4")).

(** The number a string starts with ("1080p" gives 1080). *)
Fixpoint leading_number (acc : Z) (s : string) : Z :=
  match s with
  | EmptyString => acc
  | String c s' =>
      let n := Z.of_nat (nat_of_ascii c) in
      if ((48 <=? n) && (n <=? 57))%Z
      then leading_number (10 * acc + (n - 48)) s'
      else acc
  end.

Definition sample_compareResolutions (a b : value) : number :=
  match a, b with
  | VString x, VString y => num_of_Z (leading_number 0 x - leading_number 0 y)
  | _, _ => NaN
  end.

Definition sample_suite : Suite :=
  PlaybackperfTest sample_Media sample_compareResolutions true "1.0".

Definition sample_video (paused : bool) (time : Q) (decoded dropped : Z) : Video :=
  mkVideo paused (Fin time) (Fin 1) false true decoded dropped.

Definition sample_world (decoded dropped : Z) : World :=
  mkWorld (sample_video false 15 decoded dropped) None [].

(** The FrameDrop test of the concrete table, started on a video that
    supports the metrics, when the first stream has played for 15 seconds
    with the given frame counts. *)
Definition FrameDrop_after_15s (decoded dropped : Z) : Sys :=
  exec
    (run_start sample_Media
       (FrameDrop_start (H264.Webgl1080p60fps (H264 sample_Media))
          (VP9.Webgl2160p60fps (VP9 sample_Media))) ;;
     host_advances (Fin 15) decoded dropped)
    (initial_sys (sample_video true 0 0 0)).

(** The pairs of keys [(s, formatIdx)] two nested [for .. in] loops go
    through, over arrays of [n] and of [m] elements. *)
Definition iterations (n m : nat) : list (nat * nat) :=
  flat_map (fun s => map (pair s) (seq 0 m)) (seq 0 n).



(** ** Proof steps *)

(** Unfolds one callback down to the tests it makes on the video. *)
Ltac run_sys :=
  cbv beta iota zeta delta
    [sys_new_calls exec run_handler bind ret lift get_video call set_status
     set_video video_pause video_play video_set_playbackRate
     removeEventListener addEventListener playVideo
     updateVideoPerfMetricsStatus assertAtLeastOneFrameDecoded
     getTotalDroppedFrames getTotalDecodedFrames fst snd world listeners
     next_id videoSb audioSb uncaught video status calls paused currentTime
     playbackRate hasSrc supportsVideoPerformanceMetrics
     totalDecodedVideoFrames droppedVideoFrames negb andb].

Ltac new_calls_done :=
  rewrite <- ?app_assoc; first [apply drop_app_length | reflexivity].

(** Unfolds a PlaybackPerf callback down to the calls of its assertion
    function. *)
Ltac run_asserts :=
  cbv beta iota zeta delta
    [sys_new_calls exec run_handler bind ret lift get_video call set_status
     set_video video_pause video_play video_set_playbackRate
     removeEventListener addEventListener playVideo
     updateVideoPerfMetricsStatus assertAtLeastOneFrameDecoded
     assertMaxDroppedFrames assertMaxDroppedFramesRatio defaultTestAssertion
     HFRHighSpeedPlaybackTestAssertion
     getTotalDroppedFrames getTotalDecodedFrames fst snd world listeners
     next_id videoSb audioSb uncaught video status calls paused currentTime
     playbackRate hasSrc supportsVideoPerformanceMetrics
     totalDecodedVideoFrames droppedVideoFrames negb andb].

(** * Properties *)

(** ** Numbers *)

Lemma num_le_of_Z (a b : Z) :
  num_le (num_of_Z a) (num_of_Z b) = true <-> (a <= b)%Z.
Proof.
  unfold num_le, num_of_Z. rewrite Qle_bool_iff, <- Zle_Qle. reflexivity.
Qed.

Lemma num_lt_Fin (x y : Q) : num_lt (Fin x) (Fin y) = true <-> (x < y)%Q.
Proof.
  unfold num_lt. rewrite negb_true_iff. split.
  - intros H. apply Qnot_le_lt. intros Hle.
    apply Qle_bool_iff in Hle. congruence.
  - intros H. destruct (Qle_bool y x) eqn:E; [|reflexivity].
    apply Qle_bool_iff in E. exfalso. exact (Qlt_not_le _ _ H E).
Qed.

Lemma num_lt_of_Z (a b : Z) :
  num_lt (num_of_Z a) (num_of_Z b) = true <-> (a < b)%Z.
Proof. unfold num_of_Z. rewrite num_lt_Fin, <- Zlt_Qlt. reflexivity. Qed.

Lemma Qeq_bool_inject_Z_0 (z : Z) : Qeq_bool (inject_Z z) 0 = (z =? 0)%Z.
Proof.
  destruct (Z.eqb_spec z 0) as [->|Hne]; [reflexivity|].
  destruct (Qeq_bool (inject_Z z) 0) eqn:E; [|reflexivity].
  apply Qeq_bool_iff in E. unfold Qeq in E. simpl in E. lia.
Qed.


Lemma num_div_of_Z_pos (a b : Z) :
  (0 < b)%Z -> num_div (num_of_Z a) (num_of_Z b) = Fin (inject_Z a / inject_Z b).
Proof.
  intros Hb. unfold num_div, num_of_Z. rewrite Qeq_bool_inject_Z_0.
  destruct (Z.eqb_spec b 0); [lia|reflexivity].
Qed.


(** ** The calls a [PerfTestUtil_] method adds *)

Lemma new_calls_app (w : World) (v : Video) (st : option string) (cs : list Call) :
  drop (length (calls w)) (calls (mkWorld v st (calls w ++ cs))) = cs.
Proof. simpl. apply drop_app_length. Qed.

Lemma new_calls_same (w : World) : drop (length (calls w)) (calls w) = [].
Proof. apply drop_all. Qed.

Lemma assertAtLeastOneFrameDecoded_exec (w : World) :
  exec assertAtLeastOneFrameDecoded w =
  if (totalDecodedVideoFrames (video w) <=? 0)%Z
  then mkWorld (video w) (Some "Fail")
         (calls w ++ [runner_fail "UserAgent was unable to render any frames."])
  else w.
Proof.
  unfold assertAtLeastOneFrameDecoded, exec, bind, getTotalDecodedFrames.
  change (Fin 0) with (num_of_Z 0).
  destruct (Z.leb_spec (totalDecodedVideoFrames (video w)) 0) as [H|H].
  - apply num_le_of_Z in H. rewrite H. reflexivity.
  - destruct (num_le _ _) eqn:E; [|reflexivity].
    apply num_le_of_Z in E. lia.
Qed.

Lemma assertMaxDroppedFrames_exec (w : World) (m : number) :
  exec (assertMaxDroppedFrames m) w =
  mkWorld (video w) (status w)
    (calls w ++ [runner_checkLE (num_of_Z (droppedVideoFrames (video w))) m
                   "Total dropped frames"]).
Proof. reflexivity. Qed.

Lemma assertMaxDroppedFramesRatio_exec (w : World) (m : number) :
  exec (assertMaxDroppedFramesRatio m) w =
  mkWorld (video w) (status w)
    (calls w ++
     [runner_checkLE
        (num_div (num_of_Z (droppedVideoFrames (video w)))
                 (num_of_Z (totalDecodedVideoFrames (video w))))
        m "Total dropped frames / total decoded frames"]).
Proof. reflexivity. Qed.

(** C8.  [assertAtLeastOneFrameDecoded] calls [runner.fail] exactly when the
    decoded frame count is at most 0, and then it also sets the status of the
    test to 'Fail'; with one decoded frame or more it changes nothing and
    calls nothing. *)
Theorem assertAtLeastOneFrameDecoded_fails_iff (w : World) :
  let decoded := totalDecodedVideoFrames (video w) in
  (existsb is_fail (new_calls assertAtLeastOneFrameDecoded w) = true
     <-> (decoded <= 0)%Z) /\
  ((decoded <= 0)%Z ->
     exec assertAtLeastOneFrameDecoded w =
     mkWorld (video w) (Some "Fail")
       (calls w ++ [runner_fail "UserAgent was unable to render any frames."])) /\
  ((1 <= decoded)%Z ->
     exec assertAtLeastOneFrameDecoded w = w /\
     new_calls assertAtLeastOneFrameDecoded w = []).
Proof.
  cbv zeta. unfold new_calls. rewrite assertAtLeastOneFrameDecoded_exec.
  destruct (Z.leb_spec (totalDecodedVideoFrames (video w)) 0) as [H|H].
  - rewrite new_calls_app. simpl. repeat split; intros; try lia; auto.
  - rewrite new_calls_same. simpl. repeat split; intros; try lia; try discriminate.
Qed.

(** C4.  [assertMaxDroppedFrames(max)] makes the single call
    [checkLE(dropped, max, ..)], which reports a failure exactly when the
    dropped frame count is greater than [max], so that a count equal to
    [max] passes; with [max = 1] the counts 0 and 1 pass and every count from
    2 on fails. *)
Theorem assertMaxDroppedFrames_fails_iff (w : World) (max : Q) :
  let d := droppedVideoFrames (video w) in
  new_calls (assertMaxDroppedFrames (Fin max)) w =
    [runner_checkLE (num_of_Z d) (Fin max) "Total dropped frames"] /\
  (existsb reports_failure (new_calls (assertMaxDroppedFrames (Fin max)) w) = true
     <-> (max < inject_Z d)%Q) /\
  (existsb reports_failure (new_calls (assertMaxDroppedFrames (Fin 1)) w) = false
     <-> (d <= 1)%Z) /\
  (existsb reports_failure (new_calls (assertMaxDroppedFrames (Fin 1)) w) = true
     <-> (2 <= d)%Z).
Proof.
  cbv zeta. unfold new_calls. rewrite !assertMaxDroppedFrames_exec, !new_calls_app.
  cbn [existsb reports_failure]. rewrite !orb_false_r.
  unfold checkLE_fails, num_gt.
  split; [reflexivity|]. split; [apply num_lt_Fin|].
  change (Fin 1) with (num_of_Z 1).
  pose proof (num_lt_of_Z 1 (droppedVideoFrames (video w))) as Hlt.
  destruct (num_lt (num_of_Z 1) (num_of_Z (droppedVideoFrames (video w)))).
  - assert (1 < droppedVideoFrames (video w))%Z as Hgt by (apply Hlt; reflexivity).
    split; split; intros H; try reflexivity; try discriminate; lia.
  - assert (~ (1 < droppedVideoFrames (video w))%Z) as Hle
      by (intros Hgt; apply Hlt in Hgt; discriminate).
    split; split; intros H; try reflexivity; try discriminate; lia.
Qed.


(** ** Building the [tests] array *)

Lemma alter_snoc {A : Type} (f : A -> A) (l : list A) (x : A) :
  alter f (length l) (l ++ [x]) = l ++ [f x].
Proof.
  rewrite <- (Nat.add_0_r (length l)). rewrite alter_app_r. reflexivity.
Qed.

Lemma for_keys_app {S K : Type} (a b : list K) (body : K -> State S unit) (s : S) :
  exec (for_keys (a ++ b) body) s = exec (for_keys b body) (exec (for_keys a body) s).
Proof.
  revert s. induction a as [|k a IH]; intros s; [reflexivity|].
  simpl. unfold exec, bind in *. simpl.
  destruct (body k s) as [u s']. apply IH.
Qed.

Lemma for_keys_map {S K L : Type} (g : K -> L) (keys : list K)
    (body : L -> State S unit) (s : S) :
  exec (for_keys (map g keys) body) s = exec (for_keys keys (fun k => body (g k))) s.
Proof.
  revert s. induction keys as [|k keys IH]; intros s; [reflexivity|].
  simpl. unfold exec, bind in *. destruct (body (g k) s) as [u s']. apply IH.
Qed.

Lemma for_keys_nested_from {S : Type} (a n m : nat)
    (body : nat -> nat -> State S unit) (s : S) :
  exec (for_keys (seq a n) (fun k => for_keys (seq 0 m) (body k))) s =
  exec (for_keys (flat_map (fun k => map (pair k) (seq 0 m)) (seq a n))
          (fun p => body (fst p) (snd p))) s.
Proof.
  revert a s. induction n as [|n IH]; intros a s; [reflexivity|].
  cbn [seq flat_map]. rewrite for_keys_app, for_keys_map. cbn [fst snd].
  rewrite <- IH. cbn [for_keys]. unfold exec, bind.
  destruct (for_keys (seq 0 m) (body a) s) as [u s']. reflexivity.
Qed.

(** Two nested loops run the body once for each pair of keys, in the order
    of [iterations]. *)
Lemma for_keys_nested {S : Type} (n m : nat) (body : nat -> nat -> State S unit)
    (s : S) :
  exec (for_keys (seq 0 n) (fun a => for_keys (seq 0 m) (body a))) s =
  exec (for_keys (iterations n m) (fun p => body (fst p) (snd p))) s.
Proof. apply for_keys_nested_from. Qed.

(** A loop whose body pushes one element pushes one element for each key. *)
Lemma for_keys_push {K T : Type} (keys : list K) (body : K -> State (list T) unit)
    (mk : nat -> K -> T) :
  (forall k st, exec (body k) st = st ++ [mk (length st) k]) ->
  forall st,
    exec (for_keys keys body) st = st ++ imap (fun i k => mk (length st + i) k) keys.
Proof.
  intros Hbody. induction keys as [|k keys IH]; intros st.
  - simpl. rewrite app_nil_r. reflexivity.
  - cbn [for_keys]. unfold exec, bind in *.
    specialize (Hbody k st). destruct (body k st) as [u st']. simpl in Hbody.
    subst st'. rewrite IH. rewrite <- app_assoc. f_equal. simpl. f_equal.
    + f_equal. lia.
    + apply imap_ext. intros i x _. simpl. f_equal.
      rewrite length_app. simpl. lia.
Qed.


Lemma lookup_iterations_from (a n m j i : nat) :
  j < n -> i < m ->
  flat_map (fun k => map (pair k) (seq 0 m)) (seq a n) !! (j * m + i) =
  Some (a + j, i).
Proof.
  revert a j. induction n as [|n IH]; intros a j Hj Hi; [lia|].
  cbn [seq flat_map]. destruct j as [|j].
  - rewrite lookup_app_l by (rewrite length_map, length_seq; lia).
    simpl. rewrite list_lookup_fmap, lookup_seq_lt by lia.
    simpl. f_equal. f_equal. lia.
  - rewrite lookup_app_r by (rewrite length_map, length_seq; simpl; lia).
    rewrite length_map, length_seq.
    replace (S j * m + i - m) with (j * m + i) by (simpl; lia).
    rewrite IH by lia. f_equal. f_equal. lia.
Qed.

Lemma lookup_iterations (n m j i : nat) :
  j < n -> i < m -> iterations n m !! (j * m + i) = Some (j, i).
Proof. intros Hj Hi. unfold iterations. rewrite lookup_iterations_from; auto. Qed.

Lemma length_iterations_from (a n m : nat) :
  length (flat_map (fun k => map (pair k) (seq 0 m)) (seq a n)) = n * m.
Proof.
  revert a. induction n as [|n IH]; intros a; [reflexivity|].
  cbn [seq flat_map]. rewrite length_app, length_map, length_seq, IH. simpl. lia.
Qed.

Lemma length_iterations (n m : nat) : length (iterations n m) = n * m.
Proof. apply length_iterations_from. Qed.

Lemma exec_seq {S A B : Type} (m : State S A) (k : State S B) (s : S) :
  exec (bind m (fun _ => k)) s = exec k (exec m s).
Proof. unfold exec, bind. destruct (m s). reflexivity. Qed.

Lemma append_assoc (a b c : string) : (a +:+ b) +:+ c = a +:+ (b +:+ c).
Proof.
  induction a as [|x a IH]; [reflexivity|].
  change (String x ((a +:+ b) +:+ c) = String x (a +:+ (b +:+ c))).
  f_equal. exact IH.
Qed.

Lemma defaultTestAssertion_neq_HFR :
  defaultTestAssertion <> HFRHighSpeedPlaybackTestAssertion.
Proof.
  intros H.
  apply (f_equal (fun f => calls (exec f (sample_world 1 0)))) in H.
  vm_compute in H. discriminate H.
Qed.

Lemma perfTest_fields_category (n : nat) (cat m : value) (t : Test) :
  category (perfTest_fields n cat m t) =
  js_or cat (VString "Playback Performance").
Proof.
  unfold perfTest_fields. cbv zeta.
  destruct (String.eqb (typeof m) "boolean"); reflexivity.
Qed.

Lemma perfTest_fields_index (n : nat) (cat m : value) (t : Test) :
  index (perfTest_fields n cat m t) = n /\
  passes (perfTest_fields n cat m t) = 0%Z /\
  failures (perfTest_fields n cat m t) = 0%Z /\
  timeouts (perfTest_fields n cat m t) = 0%Z.
Proof.
  unfold perfTest_fields. cbv zeta.
  destruct (String.eqb (typeof m) "boolean"); repeat split.
Qed.

Lemma perfTest_fields_mandatory (n : nat) (cat m : value) (t : Test) :
  mandatory (perfTest_fields n cat m t) =
  if String.eqb (typeof m) "boolean" then Some m else mandatory t.
Proof.
  unfold perfTest_fields. cbv zeta.
  destruct (String.eqb (typeof m) "boolean"); reflexivity.
Qed.

Section SuiteProperties.

Variable Media : MediaTable.
Variable compareResolutions : value -> value -> number.
Variable window_MediaSource : bool.
Variable MediaSource_version : string.

Lemma createTotalVideoFramesValidationTest_exec
    (videoStream : Stream) (frames : number) (st : list Test) :
  exec (createTotalVideoFramesValidationTest videoStream frames) st =
  st ++ [mkTest "TotalVideoFrames" (length st) 0 0 0
           (VString "Media Playback Quality") None
           (Some "TotalVideoFrames Validation")
           (Some (TotalVideoFrames_start videoStream frames))].
Proof.
  unfold createTotalVideoFramesValidationTest, exec, bind, createPerfTest,
    prototype_set.
  cbn [snd]. rewrite !alter_snoc. reflexivity.
Qed.

Lemma createFrameDropValidationTest_exec
    (videoStream1 videoStream2 : Stream) (st : list Test) :
  exec (createFrameDropValidationTest videoStream1 videoStream2) st =
  st ++ [mkTest "FrameDrop" (length st) 0 0 0
           (VString "Media Playback Quality") None
           (Some "Frame Drop Validation")
           (Some (FrameDrop_start videoStream1 videoStream2))].
Proof.
  unfold createFrameDropValidationTest, exec, bind, createPerfTest,
    prototype_set.
  cbn [snd]. rewrite !alter_snoc. reflexivity.
Qed.

Lemma createPlaybackPerfTest_exec (videoStream : Stream) (playbackRate : number)
    (category : value) (stopPlayback : Video -> bool)
    (assertTest : State World unit) (mandatory : value) (st : list Test) :
  exec (createPlaybackPerfTest compareResolutions videoStream playbackRate
          category stopPlayback assertTest mandatory) st =
  st ++ [PlaybackPerf_descriptor compareResolutions (length st) videoStream
           playbackRate category stopPlayback assertTest mandatory].
Proof.
  unfold createPlaybackPerfTest, exec, bind, createPerfTest, prototype_set.
  cbn [snd]. rewrite !alter_snoc.
  unfold PlaybackPerf_descriptor, perfTest_fields. cbv zeta.
  destruct (String.eqb (typeof _) "boolean"); reflexivity.
Qed.

Lemma PlaybackPerf_descriptor_name (idx : nat) (videoStream : Stream)
    (playbackRate : number) (category : value) (stopPlayback : Video -> bool)
    (assertTest : State World unit) (mandatory : value) :
  name (PlaybackPerf_descriptor compareResolutions idx videoStream playbackRate
          category stopPlayback assertTest mandatory) =
  "PlaybackPerf." +:+ codec videoStream +:+ "." +:+
  to_string (get videoStream "resolution") +:+
  to_string (get videoStream "fps") +:+ "@" +:+
  number_to_string playbackRate +:+ "X".
Proof.
  unfold PlaybackPerf_descriptor. cbn [name]. rewrite !append_assoc. reflexivity.
Qed.

Lemma sfr_loop_exec (st : list Test) :
  exec (sfr_loop Media compareResolutions) st =
  st ++ imap (fun i p =>
          PlaybackPerf_descriptor compareResolutions (length st + i)
            (mediaFormats Media !!! snd p) (playbackSpeeds !!! fst p)
            (VString "Playback Performance") shouldStopPlayback
            defaultTestAssertion undefined)
        (iterations (length playbackSpeeds) (length (mediaFormats Media))).
Proof.
  unfold sfr_loop, for_in. rewrite for_keys_nested.
  apply (for_keys_push _ _
    (fun idx p =>
       PlaybackPerf_descriptor compareResolutions idx
         (mediaFormats Media !!! snd p) (playbackSpeeds !!! fst p)
         (VString "Playback Performance") shouldStopPlayback
         defaultTestAssertion undefined)).
  intros p st'. apply createPlaybackPerfTest_exec.
Qed.

Lemma hfr_loop_exec (st : list Test) :
  exec (hfr_loop Media compareResolutions) st =
  st ++ imap (fun i p =>
          PlaybackPerf_descriptor compareResolutions (length st + i)
            (mediaFormatsHfr Media !!! snd p) (playbackSpeeds !!! fst p)
            (VString "HFR Playback Performance") shouldStopPlayback
            (if num_le (playbackSpeeds !!! fst p) (Fin 1)
             then defaultTestAssertion else HFRHighSpeedPlaybackTestAssertion)
            undefined)
        (iterations (length playbackSpeeds) (length (mediaFormatsHfr Media))).
Proof.
  unfold hfr_loop, for_in. rewrite for_keys_nested.
  apply (for_keys_push _ _
    (fun idx p =>
       PlaybackPerf_descriptor compareResolutions idx
         (mediaFormatsHfr Media !!! snd p) (playbackSpeeds !!! fst p)
         (VString "HFR Playback Performance") shouldStopPlayback
         (if num_le (playbackSpeeds !!! fst p) (Fin 1)
          then defaultTestAssertion else HFRHighSpeedPlaybackTestAssertion)
         undefined)).
  intros p st'. apply createPlaybackPerfTest_exec.
Qed.

(** The array the suite returns: the two validation tests, then one test for
    each iteration of the SFR loop, then one for each iteration of the HFR
    loop. *)
Lemma tests_structure :
  tests (PlaybackperfTest Media compareResolutions window_MediaSource
           MediaSource_version) =
  [ mkTest "TotalVideoFrames" 0 0 0 0 (VString "Media Playback Quality") None
      (Some "TotalVideoFrames Validation")
      (Some (TotalVideoFrames_start (H264.Video1MB (H264 Media)) (Fin 25)));
    mkTest "FrameDrop" 1 0 0 0 (VString "Media Playback Quality") None
      (Some "Frame Drop Validation")
      (Some (FrameDrop_start (H264.Webgl1080p60fps (H264 Media))
               (VP9.Webgl2160p60fps (VP9 Media)))) ] ++
  imap (fun i p =>
          PlaybackPerf_descriptor compareResolutions (2 + i)
            (mediaFormats Media !!! snd p) (playbackSpeeds !!! fst p)
            (VString "Playback Performance") shouldStopPlayback
            defaultTestAssertion undefined)
       (iterations 8 16) ++
  imap (fun i p =>
          PlaybackPerf_descriptor compareResolutions (130 + i)
            (mediaFormatsHfr Media !!! snd p) (playbackSpeeds !!! fst p)
            (VString "HFR Playback Performance") shouldStopPlayback
            (if num_le (playbackSpeeds !!! fst p) (Fin 1)
             then defaultTestAssertion else HFRHighSpeedPlaybackTestAssertion)
            undefined)
       (iterations 8 6).
Proof.
  unfold PlaybackperfTest. cbn [tests]. unfold build_tests.
  rewrite !exec_seq.
  rewrite createTotalVideoFramesValidationTest_exec,
    createFrameDropValidationTest_exec, sfr_loop_exec, hfr_loop_exec.
  cbn [app length]. rewrite length_imap, length_iterations.
  change (length playbackSpeeds) with 8.
  change (length (mediaFormats Media)) with 16.
  change (length (mediaFormatsHfr Media)) with 6.
  reflexivity.
Qed.

Lemma sfr_lookup (i j : nat) (vs : Stream) (sp : number) :
  mediaFormats Media !! i = Some vs ->
  playbackSpeeds !! j = Some sp ->
  tests (PlaybackperfTest Media compareResolutions window_MediaSource
           MediaSource_version) !! (2 + 16 * j + i) =
  Some (PlaybackPerf_descriptor compareResolutions (2 + 16 * j + i) vs sp
          (VString "Playback Performance") shouldStopPlayback
          defaultTestAssertion undefined).
Proof.
  intros Hi Hj. rewrite tests_structure.
  pose proof (lookup_lt_Some _ _ _ Hi) as Hi'.
  pose proof (lookup_lt_Some _ _ _ Hj) as Hj'.
  change (length (mediaFormats Media)) with 16 in Hi'.
  change (length playbackSpeeds) with 8 in Hj'.
  rewrite lookup_app_r by (cbn [length]; lia). cbn [length].
  rewrite lookup_app_l by (rewrite length_imap, length_iterations; lia).
  rewrite list_lookup_imap.
  replace (2 + 16 * j + i - 2) with (j * 16 + i) by lia.
  rewrite lookup_iterations by lia. cbn [fmap option_fmap option_map fst snd].
  rewrite (list_lookup_total_correct _ _ _ Hi), (list_lookup_total_correct _ _ _ Hj).
  do 2 f_equal. lia.
Qed.

Lemma hfr_lookup (i j : nat) (vs : Stream) (sp : number) :
  mediaFormatsHfr Media !! i = Some vs ->
  playbackSpeeds !! j = Some sp ->
  tests (PlaybackperfTest Media compareResolutions window_MediaSource
           MediaSource_version) !! (130 + 6 * j + i) =
  Some (PlaybackPerf_descriptor compareResolutions (130 + 6 * j + i) vs sp
          (VString "HFR Playback Performance") shouldStopPlayback
          (if num_le sp (Fin 1)
           then defaultTestAssertion else HFRHighSpeedPlaybackTestAssertion)
          undefined).
Proof.
  intros Hi Hj. rewrite tests_structure.
  pose proof (lookup_lt_Some _ _ _ Hi) as Hi'.
  pose proof (lookup_lt_Some _ _ _ Hj) as Hj'.
  change (length (mediaFormatsHfr Media)) with 6 in Hi'.
  change (length playbackSpeeds) with 8 in Hj'.
  rewrite lookup_app_r by (cbn [length]; lia). cbn [length].
  rewrite lookup_app_r by (rewrite length_imap, length_iterations; lia).
  rewrite length_imap, length_iterations.
  rewrite list_lookup_imap.
  replace (130 + 6 * j + i - 2 - 8 * 16) with (j * 6 + i) by lia.
  rewrite lookup_iterations by lia. cbn [fmap option_fmap option_map fst snd].
  rewrite (list_lookup_total_correct _ _ _ Hi), (list_lookup_total_correct _ _ _ Hj).
  do 2 f_equal. lia.
Qed.

Lemma iterations_unique (n m j i k : nat) :
  j < n -> i < m -> (iterations n m !! k = Some (j, i) <-> k = m * j + i).
Proof.
  intros Hj Hi. split.
  - intros H. pose proof (lookup_lt_Some _ _ _ H) as Hk.
    rewrite length_iterations in Hk.
    assert (k mod m < m) as Hmod by (apply Nat.mod_upper_bound; lia).
    assert (k / m < n) as Hdiv by (apply Nat.Div0.div_lt_upper_bound; lia).
    pose proof (Nat.div_mod_eq k m) as Hkm.
    pose proof (lookup_iterations n m (k / m) (k mod m) Hdiv Hmod) as Hl.
    replace (k / m * m + k mod m) with k in Hl by lia.
    rewrite H in Hl. injection Hl as -> ->. lia.
  - intros ->. replace (m * j + i) with (j * m + i) by lia.
    apply lookup_iterations; assumption.
Qed.

Lemma lookup_iterations_inv (n m k : nat) (p : nat * nat) :
  iterations n m !! k = Some p -> fst p < n /\ snd p < m /\ k = m * fst p + snd p.
Proof.
  intros H. pose proof (lookup_lt_Some _ _ _ H) as Hk.
  rewrite length_iterations in Hk.
  assert (k mod m < m) as Hmod by (apply Nat.mod_upper_bound; lia).
  assert (k / m < n) as Hdiv by (apply Nat.Div0.div_lt_upper_bound; lia).
  pose proof (Nat.div_mod_eq k m) as Hkm.
  pose proof (lookup_iterations n m (k / m) (k mod m) Hdiv Hmod) as Hl.
  replace (k / m * m + k mod m) with k in Hl by lia.
  rewrite H in Hl. injection Hl as ->. cbn [fst snd]. lia.
Qed.

(** C1.  The standard-format table has 16 entries and there are 8 speeds.
    The SFR loop calls [createPlaybackPerfTest] once for each pair of keys,
    the pair [(j, i)] being visited at iteration [16 * j + i] and at no
    other; the call for a format and a speed pushes one descriptor, named
    'PlaybackPerf.' + codec + '.' + resolution + fps + '@' + speed + 'X'; and
    in the array the suite returns that descriptor is at position
    [2 + 16 * j + i]. *)
Theorem sfr_one_descriptor_per_format_and_speed
    (i j : nat) (vs : Stream) (sp : number) :
  mediaFormats Media !! i = Some vs ->
  playbackSpeeds !! j = Some sp ->
  length (mediaFormats Media) = 16 /\ length playbackSpeeds = 8 /\
  (forall st,
     exec (sfr_loop Media compareResolutions) st =
     exec (for_keys (iterations 8 16)
             (fun p =>
                createPlaybackPerfTest compareResolutions
                  (mediaFormats Media !!! snd p) (playbackSpeeds !!! fst p)
                  (VString "Playback Performance") shouldStopPlayback
                  defaultTestAssertion undefined)) st) /\
  (forall k, iterations 8 16 !! k = Some (j, i) <-> k = 16 * j + i) /\
  (forall st, exists t,
     exec (createPlaybackPerfTest compareResolutions vs sp
             (VString "Playback Performance") shouldStopPlayback
             defaultTestAssertion undefined) st = st ++ [t] /\
     name t =
       "PlaybackPerf." +:+ codec vs +:+ "." +:+
       to_string (get vs "resolution") +:+ to_string (get vs "fps") +:+
       "@" +:+ number_to_string sp +:+ "X") /\
  exists t,
    tests (PlaybackperfTest Media compareResolutions window_MediaSource
             MediaSource_version) !! (2 + 16 * j + i) = Some t /\
    name t =
      "PlaybackPerf." +:+ codec vs +:+ "." +:+
      to_string (get vs "resolution") +:+ to_string (get vs "fps") +:+
      "@" +:+ number_to_string sp +:+ "X" /\
    start t =
      Some (PlaybackPerf_start vs sp shouldStopPlayback defaultTestAssertion).
Proof.
  intros Hi Hj.
  pose proof (lookup_lt_Some _ _ _ Hi) as Hi'.
  pose proof (lookup_lt_Some _ _ _ Hj) as Hj'.
  change (length (mediaFormats Media)) with 16 in Hi'.
  change (length playbackSpeeds) with 8 in Hj'.
  split; [reflexivity|]. split; [reflexivity|]. split; [|split; [|split]].
  - intros st. unfold sfr_loop, for_in. apply for_keys_nested.
  - intros k. apply iterations_unique; assumption.
  - intros st. eexists. split; [apply createPlaybackPerfTest_exec|].
    apply PlaybackPerf_descriptor_name.
  - eexists. split; [apply sfr_lookup; eassumption|].
    split; [apply PlaybackPerf_descriptor_name|reflexivity].
Qed.

(** C2.  Called without a [mandatory] argument, [createPlaybackPerfTest]
    sets the [mandatory] field to [false] exactly when the codec of the
    stream is 'H264' and its resolution compares greater than '1080p', and to
    [true] in every other case; called with a boolean, it sets the field to
    that boolean, whatever the codec and the resolution. *)
Theorem createPlaybackPerfTest_mandatory
    (vs : Stream) (rate : number) (category : value)
    (stopPlayback : Video -> bool) (assertTest : State World unit)
    (st : list Test) :
  let optional :=
    codec vs = "H264" /\
    num_gt (compareResolutions (get vs "resolution") (VString "1080p")) (Fin 0)
      = true in
  (exists t,
     exec (createPlaybackPerfTest compareResolutions vs rate category
             stopPlayback assertTest undefined) st = st ++ [t] /\
     (mandatory t = Some (VBool false) <-> optional) /\
     (mandatory t = Some (VBool true) <-> ~ optional)) /\
  (forall b : bool, exists t,
     exec (createPlaybackPerfTest compareResolutions vs rate category
             stopPlayback assertTest (VBool b)) st = st ++ [t] /\
     mandatory t = Some (VBool b)).
Proof.
  cbv zeta. split.
  - eexists. split; [apply createPlaybackPerfTest_exec|].
    unfold PlaybackPerf_descriptor, isOptionalPlayBackPerfStream.
    cbn [mandatory typeof String.eqb Ascii.eqb Bool.eqb negb].
    destruct (String.eqb_spec (codec vs) "H264") as [Hc|Hc];
      destruct (num_gt _ _) eqn:Hr; cbn [andb negb];
      intuition (try congruence; try discriminate).
  - intros b. eexists. split; [apply createPlaybackPerfTest_exec|].
    destruct b; reflexivity.
Qed.

Lemma playbackSpeeds_le_or_gt (j : nat) (sp : number) :
  playbackSpeeds !! j = Some sp ->
  (num_le sp (Fin 1) = true /\ num_gt sp (Fin 1) = false) \/
  (num_le sp (Fin 1) = false /\ num_gt sp (Fin 1) = true).
Proof.
  intros H.
  do 8 (destruct j as [|j];
        [injection H as <-; vm_compute; auto|]).
  discriminate H.
Qed.

(** C3.  The test of the HFR loop for a format and a speed is given
    [defaultTestAssertion] exactly when the speed is at most 1 and
    [HFRHighSpeedPlaybackTestAssertion] exactly when the speed is greater
    than 1; the test of the SFR loop for that speed and any format is given
    [defaultTestAssertion].  The same holds of every PlaybackPerf test of the
    array, told by its category.  The first function runs
    [assertAtLeastOneFrameDecoded] then [assertMaxDroppedFrames(1)], the
    second [assertAtLeastOneFrameDecoded] then
    [assertMaxDroppedFramesRatio(0.45)]. *)
Theorem hfr_assertion_selection (i j : nat) (vs : Stream) (sp : number) :
  mediaFormatsHfr Media !! i = Some vs ->
  playbackSpeeds !! j = Some sp ->
  (exists t a,
     tests (PlaybackperfTest Media compareResolutions window_MediaSource
              MediaSource_version) !! (130 + 6 * j + i) = Some t /\
     category t = VString "HFR Playback Performance" /\
     start t = Some (PlaybackPerf_start vs sp shouldStopPlayback a) /\
     (a = defaultTestAssertion <-> num_le sp (Fin 1) = true) /\
     (a = HFRHighSpeedPlaybackTestAssertion <-> num_gt sp (Fin 1) = true)) /\
  (forall i' vs', mediaFormats Media !! i' = Some vs' ->
     exists t,
       tests (PlaybackperfTest Media compareResolutions window_MediaSource
                MediaSource_version) !! (2 + 16 * j + i') = Some t /\
       category t = VString "Playback Performance" /\
       start t =
         Some (PlaybackPerf_start vs' sp shouldStopPlayback defaultTestAssertion)) /\
  (forall k t vs' sp' stop a,
     tests (PlaybackperfTest Media compareResolutions window_MediaSource
              MediaSource_version) !! k = Some t ->
     start t = Some (PlaybackPerf_start vs' sp' stop a) ->
     (category t = VString "HFR Playback Performance" ->
        (a = defaultTestAssertion <-> num_le sp' (Fin 1) = true) /\
        (a = HFRHighSpeedPlaybackTestAssertion <-> num_gt sp' (Fin 1) = true)) /\
     (category t = VString "Playback Performance" ->
        a = defaultTestAssertion) /\
     (category t = VString "HFR Playback Performance" \/
      category t = VString "Playback Performance")) /\
  (forall w,
     exec defaultTestAssertion w =
     exec (assertMaxDroppedFrames (Fin 1)) (exec assertAtLeastOneFrameDecoded w)) /\
  (forall w,
     exec HFRHighSpeedPlaybackTestAssertion w =
     exec (assertMaxDroppedFramesRatio (Fin 0.45))
       (exec assertAtLeastOneFrameDecoded w)).
Proof.
  intros Hi Hj. pose proof defaultTestAssertion_neq_HFR as Hneq.
  split; [|split; [|split; [|split]]].
  - eexists. eexists. split; [apply hfr_lookup; eassumption|].
    split; [reflexivity|]. split; [reflexivity|].
    destruct (playbackSpeeds_le_or_gt _ _ Hj) as [[-> ->]|[-> ->]];
      split; split; intros H; try reflexivity; try discriminate H;
      exfalso; apply Hneq; congruence.
  - intros i' vs' Hi'. eexists. split; [apply sfr_lookup; eassumption|].
    split; reflexivity.
  - intros k t vs' sp' stop a Hk Hs. rewrite tests_structure in Hk.
    destruct k as [|[|k]];
      [injection Hk as <-; discriminate Hs
      |injection Hk as <-; discriminate Hs|].
    change ((imap (fun i p =>
               PlaybackPerf_descriptor compareResolutions (2 + i)
                 (mediaFormats Media !!! snd p) (playbackSpeeds !!! fst p)
                 (VString "Playback Performance") shouldStopPlayback
                 defaultTestAssertion undefined) (iterations 8 16) ++
             imap (fun i p =>
               PlaybackPerf_descriptor compareResolutions (130 + i)
                 (mediaFormatsHfr Media !!! snd p) (playbackSpeeds !!! fst p)
                 (VString "HFR Playback Performance") shouldStopPlayback
                 (if num_le (playbackSpeeds !!! fst p) (Fin 1)
                  then defaultTestAssertion
                  else HFRHighSpeedPlaybackTestAssertion)
                 undefined) (iterations 8 6)) !! k = Some t) in Hk.
    apply lookup_app_Some in Hk as [Hk|[_ Hk]];
      apply list_lookup_imap_Some in Hk as (p & Hp & ->);
      unfold PlaybackPerf_descriptor in Hs; cbn [start] in Hs;
      injection Hs as <- <- <- <-.
    + split; [intros Hc; discriminate Hc|]. split; [reflexivity|].
      right. reflexivity.
    + apply lookup_iterations_inv in Hp as (Hp1 & _ & _).
      assert (playbackSpeeds !! fst p = Some (playbackSpeeds !!! fst p)) as Hsp
        by (apply list_lookup_lookup_total_lt; exact Hp1).
      split; [intros _|split; [intros Hc; discriminate Hc|left; reflexivity]].
      destruct (playbackSpeeds_le_or_gt _ _ Hsp) as [[-> ->]|[-> ->]];
        split; split; intros H; try reflexivity; try discriminate H;
        exfalso; apply Hneq; congruence.
  - intros w. unfold defaultTestAssertion. apply exec_seq.
  - intros w. unfold HFRHighSpeedPlaybackTestAssertion. apply exec_seq.
Qed.






End SuiteProperties.

(** ** Running the tests *)

Lemma num_le_of_Z_false (a b : Z) :
  (b < a)%Z -> num_le (num_of_Z a) (num_of_Z b) = false.
Proof.
  intros H. destruct (num_le _ _) eqn:E; [|reflexivity].
  apply num_le_of_Z in E. lia.
Qed.

Lemma num_gt_of_Z_true (a b : Z) :
  (b < a)%Z -> num_gt (num_of_Z a) (num_of_Z b) = true.
Proof. intros H. apply num_lt_of_Z. exact H. Qed.

Lemma num_gt_of_Z_false (a b : Z) :
  (a <= b)%Z -> num_gt (num_of_Z a) (num_of_Z b) = false.
Proof.
  intros H. unfold num_gt. destruct (num_lt _ _) eqn:E; [|reflexivity].
  apply num_lt_of_Z in E. lia.
Qed.

Section RunProperties.

Variable Media : MediaTable.
Variable compareResolutions : value -> value -> number.
Variable window_MediaSource : bool.
Variable MediaSource_version : string.

(** What [onTimeUpdate] of the FrameDrop test does once the playing stream
    has reached 15 seconds, according to the two frame counts and to the
    [src] of the stream. *)
Lemma FrameDrop_onTimeUpdate_stopped
    (self : nat) (s : Sys) (videoStream videoStream2 : Stream) :
  paused (video (world s)) = false ->
  num_ge (currentTime (video (world s))) (Fin 15) = true ->
  sys_new_calls
    (run_handler Media self (FrameDrop_onTimeUpdate videoStream videoStream2)) s =
  [runner_updateStatus] ++
  (if (totalDecodedVideoFrames (video (world s)) <=? 0)%Z
   then [runner_fail "UserAgent was unable to render any frames."] else []) ++
  (if (2 <? droppedVideoFrames (video (world s)))%Z then [runner_succeed]
   else if String.eqb (src videoStream2) (src videoStream)
        then [runner_fail
                (("UserAgent produced " +:+
                  number_to_string
                    (num_of_Z (droppedVideoFrames (video (world s))))) +:+
                 " dropped frames.")]
        else [setupMse videoStream2 (AAC.AudioNormal (AAC Media))]).
Proof.
  destruct s as [[[p ct pr hs sup dec drp] st cs] ls nid vsb asb unc].
  cbn [video world paused currentTime totalDecodedVideoFrames droppedVideoFrames].
  intros -> Ht.
  assert (num_le (num_of_Z dec) (Fin 0) = (dec <=? 0)%Z) as Hdec.
  { destruct (Z.leb_spec dec 0) as [H|H].
    - apply (num_le_of_Z dec 0). exact H.
    - apply (num_le_of_Z_false dec 0). exact H. }
  assert (num_gt (num_of_Z drp) (Fin 2) = (2 <? drp)%Z) as Hdrp.
  { destruct (Z.ltb_spec 2 drp) as [H|H].
    - apply (num_gt_of_Z_true drp 2). exact H.
    - apply (num_gt_of_Z_false drp 2). exact H. }
  run_sys. rewrite Ht. run_sys. rewrite Hdec.
  destruct (dec <=? 0)%Z; run_sys; rewrite Hdrp;
    destruct (2 <? drp)%Z; run_sys;
    try (destruct (String.eqb (src videoStream2) (src videoStream)); run_sys);
    cbn [app]; new_calls_done.
Qed.

(** C6, amended.  When the playing stream has reached 15 seconds and at
    least one frame was decoded: with more than 2 dropped frames the test
    succeeds; with at most 2 and a stream whose [src] is not that of the
    fallback stream, [onTimeUpdate] reports no failure and plays the fallback
    stream, with a new [onTimeUpdate] registered in place of the old one;
    with at most 2 and the [src] of the fallback stream, the test fails.  So
    a failure is reported exactly when the stream with at most 2 dropped
    frames is the fallback stream. *)
Theorem FrameDrop_falls_back_before_failing
    (self : nat) (s : Sys) (videoStream videoStream2 : Stream) :
  let v := video (world s) in
  let run :=
    run_handler Media self (FrameDrop_onTimeUpdate videoStream videoStream2) in
  paused v = false ->
  num_ge (currentTime v) (Fin 15) = true ->
  (0 < totalDecodedVideoFrames v)%Z ->
  ((2 < droppedVideoFrames v)%Z ->
     sys_new_calls run s = [runner_updateStatus; runner_succeed]) /\
  ((droppedVideoFrames v <= 2)%Z -> src videoStream2 <> src videoStream ->
     sys_new_calls run s =
       [runner_updateStatus;
        setupMse videoStream2 (AAC.AudioNormal (AAC Media))] /\
     listeners (exec run s) =
       filter (fun l => lid l <> self) (listeners s) ++
       [mkListener (next_id s) on_video "timeupdate"
          (FrameDrop_onTimeUpdate videoStream2 videoStream2)] /\
     paused (video (world (exec run s))) = false) /\
  ((droppedVideoFrames v <= 2)%Z -> src videoStream2 = src videoStream ->
     sys_new_calls run s =
       [runner_updateStatus;
        runner_fail
          (("UserAgent produced " +:+
            number_to_string (num_of_Z (droppedVideoFrames v))) +:+
           " dropped frames.")]) /\
  (existsb is_fail (sys_new_calls run s) = true <->
   (droppedVideoFrames v <= 2)%Z /\ src videoStream2 = src videoStream).
Proof.
  cbv zeta. intros Hp Ht Hdec.
  rewrite (FrameDrop_onTimeUpdate_stopped self s videoStream videoStream2 Hp Ht).
  destruct (Z.leb_spec (totalDecodedVideoFrames (video (world s))) 0) as [?|_];
    [lia|].
  cbn [app].
  destruct (Z.ltb_spec 2 (droppedVideoFrames (video (world s)))) as [Hd|Hd];
    [|destruct (String.eqb_spec (src videoStream2) (src videoStream)) as [He|He]].
  - split; [reflexivity|]. split; [intros; exfalso; lia|].
    split; [intros; exfalso; lia|].
    cbn [existsb is_fail orb]. split; [discriminate|intros [? _]; exfalso; lia].
  - split; [intros; exfalso; lia|]. split; [intros _ Hne; exfalso; auto|].
    split; [reflexivity|].
    cbn [existsb is_fail orb]. split; [intros _; split; assumption|reflexivity].
  - split; [intros; exfalso; lia|]. split; [|split].
    + intros _ _. split; [reflexivity|].
      revert Hp Ht Hdec Hd.
      destruct s as [[[p ct pr hs sup dec drp] st cs] ls nid vsb asb unc].
      cbn [video world paused currentTime totalDecodedVideoFrames
           droppedVideoFrames].
      intros -> Ht Hdec Hd.
      apply (num_le_of_Z_false dec 0) in Hdec.
      apply (num_gt_of_Z_false drp 2) in Hd.
      apply String.eqb_neq in He.
      change (num_of_Z 0) with (Fin 0) in Hdec.
      change (num_of_Z 2) with (Fin 2) in Hd.
      run_sys. rewrite Ht. run_sys. rewrite Hdec. run_sys. rewrite Hd, He.
      run_sys. split; reflexivity.
    + intros _ Heq. exfalso. auto.
    + cbn [existsb is_fail orb]. split; [discriminate|intros [_ Heq]; exfalso; auto].
Qed.

(** What the 'ended' callback of the TotalVideoFrames test calls. *)
Lemma TotalVideoFrames_ended_calls (self : nat) (frames : number) (s : Sys) :
  sys_new_calls (run_handler Media self (TotalVideoFrames_ended frames)) s =
  [runner_checkEq (num_of_Z (totalDecodedVideoFrames (video (world s)))) frames
     "playbackQuality.totalVideoFrames";
   runner_succeed].
Proof.
  destruct s as [[[p ct pr hs sup dec drp] st cs] ls nid vsb asb unc].
  run_sys. new_calls_done.
Qed.

(** C7.  The first test of the suite is the TotalVideoFrames test, built for
    [Media.H264.Video1MB] and 25 frames.  Its 'ended' callback calls
    [checkEq] on the decoded frame count and 25, then [succeed]; and these
    are the calls made when, after [start], the media source has opened, the
    two requests have loaded and the video buffer has been updated, and the
    video fires 'ended'. *)
Theorem TotalVideoFrames_checks_25_frames (v v' : Video) :
  (exists t,
     tests (PlaybackperfTest Media compareResolutions window_MediaSource
              MediaSource_version) !! 0 = Some t /\
     name t = "TotalVideoFrames" /\
     start t =
       Some (TotalVideoFrames_start (H264.Video1MB (H264 Media)) (Fin 25))) /\
  (forall self s,
     sys_new_calls (run_handler Media self (TotalVideoFrames_ended (Fin 25))) s =
     [runner_checkEq (num_of_Z (totalDecodedVideoFrames (video (world s))))
        (Fin 25) "playbackQuality.totalVideoFrames";
      runner_succeed]) /\
  (let s :=
     exec
       (run_start Media
          (TotalVideoFrames_start (H264.Video1MB (H264 Media)) (Fin 25)) ;;
        dispatch Media on_mediaSource "sourceopen" ;;
        dispatch Media on_audioXhr "load" ;;
        dispatch Media on_videoXhr "load" ;;
        dispatch Media on_videoSb "updateend" ;;
        host_sets_video v')
       (initial_sys v) in
   sys_new_calls (dispatch Media on_video "ended") s =
   [runner_checkEq (num_of_Z (totalDecodedVideoFrames v')) (Fin 25)
      "playbackQuality.totalVideoFrames";
    runner_succeed]).
Proof.
  split; [|split].
  - rewrite tests_structure. eexists. repeat split.
  - intros self s. apply TotalVideoFrames_ended_calls.
  - destruct v as [p ct pr hs sup dec drp].
    destruct v' as [p' ct' pr' hs' sup' dec' drp'].
    destruct sup; vm_compute; reflexivity.
Qed.

End RunProperties.

(** ** The suite on the concrete table *)

(** On the concrete table the names of the 178 tests are pairwise distinct:
    a format and a speed are told by the name of their test. *)
Lemma sample_names_distinct : NoDup (map name (tests sample_suite)).
Proof. apply (bool_decide_unpack _). vm_compute. reflexivity. Qed.

Example sample_first_names :
  take 4 (map name (tests sample_suite)) =
  ["TotalVideoFrames"; "FrameDrop"; "PlaybackPerf.VP9.144p30@0.25X";
   "PlaybackPerf.VP9.240p30@0.25X"].
Proof. vm_compute. reflexivity. Qed.

Example sample_info :
  info sample_suite = "webkit prefix: false | Default Timeout: 100000ms".
Proof. vm_compute. reflexivity. Qed.

Example assertMaxDroppedFrames_1_on_counts :
  map (fun d =>
         existsb reports_failure
           (new_calls (assertMaxDroppedFrames (Fin 1)) (sample_world 10 d)))
      [0; 1; 2; 3]%Z =
  [false; false; true; true].
Proof. vm_compute. reflexivity. Qed.

Example assertMaxDroppedFramesRatio_on_counts :
  map (fun d =>
         existsb reports_failure
           (new_calls (assertMaxDroppedFramesRatio (Fin 0.45)) (sample_world 100 d)))
      [0; 44; 45; 46]%Z =
  [false; false; false; true].
Proof. vm_compute. reflexivity. Qed.

(** An HFR test at speed 1.5 with 46 frames dropped out of 100: the callback
    stops the video, and the ratio assertion is what gets checked before
    [succeed] is called. *)
Example PlaybackPerf_hfr_run :
  let s :=
    exec
      (run_start sample_Media
         (PlaybackPerf_start (H264.Webgl1080p60fps (H264 sample_Media))
            (Fin 1.5) shouldStopPlayback HFRHighSpeedPlaybackTestAssertion) ;;
       host_advances (Fin 15) 100 46 ;;
       dispatch sample_Media on_video "timeupdate")
      (initial_sys (sample_video true 0 0 0)) in
  calls (world s) =
    [setupMse (H264.Webgl1080p60fps (H264 sample_Media))
       (AAC.AudioNormal (AAC sample_Media));
     runner_updateStatus;
     runner_checkLE (Fin (inject_Z 46 / inject_Z 100)) (Fin 0.45)
       "Total dropped frames / total decoded frames";
     runner_succeed] /\
  status (world s) = Some "(46/100)" /\
  paused (video (world s)) = true /\
  listeners s = [].
Proof. vm_compute. repeat split. Qed.

Lemma sfr_one_descriptor_witness :
  mediaFormats sample_Media !! 14 = Some (sample_stream "H264" "1440p" 30) /\
  playbackSpeeds !! 4 = Some (Fin 1.25) /\
  exists t,
    tests sample_suite !! (2 + 16 * 4 + 14) = Some t /\
    name t = "PlaybackPerf.H264.1440p30@1.25X" /\
    start t =
      Some (PlaybackPerf_start (sample_stream "H264" "1440p" 30) (Fin 1.25)
              shouldStopPlayback defaultTestAssertion).
Proof.
  split; [reflexivity|]. split; [reflexivity|].
  destruct (sfr_one_descriptor_per_format_and_speed sample_Media
              sample_compareResolutions true "1.0" 14 4
              (sample_stream "H264" "1440p" 30) (Fin 1.25) eq_refl eq_refl)
    as (_ & _ & _ & _ & _ & t & Ht & Hn & Hs).
  exists t. split; [exact Ht|]. split; [|exact Hs].
  rewrite Hn. vm_compute. reflexivity.
Defined.


Lemma hfr_assertion_witness :
  mediaFormatsHfr sample_Media !! 5 = Some (sample_stream "H264" "1080p" 60) /\
  playbackSpeeds !! 5 = Some (Fin 1.5) /\
  exists t,
    tests sample_suite !! (130 + 6 * 5 + 5) = Some t /\
    start t =
      Some (PlaybackPerf_start (sample_stream "H264" "1080p" 60) (Fin 1.5)
              shouldStopPlayback HFRHighSpeedPlaybackTestAssertion).
Proof.
  split; [reflexivity|]. split; [reflexivity|].
  destruct (hfr_assertion_selection sample_Media sample_compareResolutions
              true "1.0" 5 5 (sample_stream "H264" "1080p" 60) (Fin 1.5)
              eq_refl eq_refl)
    as ((t & a & Ht & _ & Hs & _ & Hgt) & _).
  exists t. split; [exact Ht|].
  rewrite Hs. f_equal. f_equal. apply Hgt. reflexivity.
Defined.



Lemma FrameDrop_falls_back_witness :
  let s := FrameDrop_after_15s 100 1 in
  paused (video (world s)) = false /\
  num_ge (currentTime (video (world s))) (Fin 15) = true /\
  (0 < totalDecodedVideoFrames (video (world s)))%Z /\
  sys_new_calls
    (run_handler sample_Media 0
       (FrameDrop_onTimeUpdate (H264.Webgl1080p60fps (H264 sample_Media))
          (VP9.Webgl2160p60fps (VP9 sample_Media)))) s =
  [runner_updateStatus;
   setupMse (VP9.Webgl2160p60fps (VP9 sample_Media))
     (AAC.AudioNormal (AAC sample_Media))].
Proof.
  cbv zeta. split; [reflexivity|]. split; [reflexivity|]. split; [reflexivity|].
  destruct (FrameDrop_falls_back_before_failing sample_Media 0
              (FrameDrop_after_15s 100 1)
              (H264.Webgl1080p60fps (H264 sample_Media))
              (VP9.Webgl2160p60fps (VP9 sample_Media))
              eq_refl eq_refl eq_refl)
    as (_ & Hadvance & _).
  apply Hadvance.
  - vm_compute. discriminate.
  - vm_compute. discriminate.
Defined.

(** C6, as stated, fails.  The first stream of the FrameDrop test has played
    for 15 seconds on the concrete table, no frame was decoded and none was
    dropped, and the stream is not the fallback stream: firing 'timeupdate'
    makes [assertAtLeastOneFrameDecoded] call [runner.fail] before the
    fallback stream is played.  So it is not true that, whatever the frame
    counts, the test succeeds with more than 2 dropped frames, plays the
    fallback stream without failing on a stream that is not the fallback,
    and fails only on the fallback stream. *)
Lemma FrameDrop_fails_without_decoded_frames :
  (let s := FrameDrop_after_15s 0 0 in
   shouldStopPlayback (video (world s)) = true /\
   (droppedVideoFrames (video (world s)) <= 2)%Z /\
   src (VP9.Webgl2160p60fps (VP9 sample_Media)) <>
     src (H264.Webgl1080p60fps (H264 sample_Media)) /\
   sys_new_calls (dispatch sample_Media on_video "timeupdate") s =
   [runner_updateStatus;
    runner_fail "UserAgent was unable to render any frames.";
    setupMse (VP9.Webgl2160p60fps (VP9 sample_Media))
      (AAC.AudioNormal (AAC sample_Media))]) /\
  ~ (forall (self : nat) (s : Sys) (videoStream videoStream2 : Stream),
       let v := video (world s) in
       let new :=
         sys_new_calls
           (run_handler sample_Media self
              (FrameDrop_onTimeUpdate videoStream videoStream2)) s in
       paused v = false ->
       num_ge (currentTime v) (Fin 15) = true ->
       ((2 < droppedVideoFrames v)%Z -> In runner_succeed new) /\
       ((droppedVideoFrames v <= 2)%Z -> src videoStream2 <> src videoStream ->
          existsb is_setupMse new = true /\ existsb is_fail new = false) /\
       (existsb is_fail new = true ->
          (droppedVideoFrames v <= 2)%Z /\ src videoStream2 = src videoStream)).
Proof.
  split.
  - cbv zeta. split; [reflexivity|]. split; [vm_compute; discriminate|].
    split; [vm_compute; discriminate|]. vm_compute. reflexivity.
  - intros H.
    destruct (H 0 (FrameDrop_after_15s 0 0)
                (H264.Webgl1080p60fps (H264 sample_Media))
                (VP9.Webgl2160p60fps (VP9 sample_Media)) eq_refl eq_refl)
      as (_ & _ & Hfail).
    assert (src (VP9.Webgl2160p60fps (VP9 sample_Media)) =
            src (H264.Webgl1080p60fps (H264 sample_Media))) as Heq
      by (apply Hfail; vm_compute; reflexivity).
    vm_compute in Heq. discriminate Heq.
Qed.

(** * Further properties *)

(** ** The generators on any array *)

Section GeneratorProperties.

Variable compareResolutions : value -> value -> number.

(** X1.  [createPerfTest] never stores a falsy category: an argument that is
    undefined, null, false, 0, NaN or the empty string is replaced by
    'Playback Performance', any other argument is stored as it is. *)
Theorem createPerfTest_category_is_truthy
    (nm : string) (cat m : value) (st : list Test) :
  exists t,
    snd (createPerfTest nm cat m st) = st ++ [t] /\
    to_boolean (category t) = true /\
    (to_boolean cat = true -> category t = cat) /\
    (to_boolean cat = false -> category t = VString "Playback Performance") /\
    (In cat [undefined; null; VBool false; VNumber (Fin 0); VNumber NaN;
             VString EmptyString] ->
     category t = VString "Playback Performance").
Proof.
  eexists. split; [reflexivity|]. rewrite perfTest_fields_category.
  unfold js_or. destruct (to_boolean cat) eqn:E.
  - split; [exact E|]. split; [reflexivity|]. split; [discriminate|].
    intros Hin. cbn [In] in Hin.
    destruct Hin as [<-|[<-|[<-|[<-|[<-|[<-|[]]]]]]]; discriminate E.
  - split; [reflexivity|]. split; [discriminate|]. split; reflexivity.
Qed.


(** X3.  A [mandatory] argument of [createPlaybackPerfTest] that is neither
    undefined nor a boolean (null, a number, a string) switches the default
    off without being written: [createPerfTest] receives it as it is and
    leaves the [mandatory] field of the object as [createTest] returned
    it. *)
Theorem createPlaybackPerfTest_other_override
    (vs : Stream) (rate : number) (cat : value) (stop : Video -> bool)
    (a : State World unit) (m : value) (st : list Test) :
  typeof m <> "undefined" ->
  typeof m <> "boolean" ->
  (forall idx t0, mandatory (perfTest_fields idx cat m t0) = mandatory t0) /\
  exists t,
    exec (createPlaybackPerfTest compareResolutions vs rate cat stop a m) st =
      st ++ [t] /\
    t = set_start (PlaybackPerf_start vs rate stop a)
          (set_title "Playback performance test"
             (perfTest_fields (length st) cat m (createTest (name t)))) /\
    mandatory t = mandatory (createTest (name t)).
Proof.
  intros Hu Hb. split.
  - intros idx t0. rewrite perfTest_fields_mandatory.
    destruct m; cbn [typeof] in Hu, Hb; try reflexivity; exfalso; auto.
  - eexists. split; [apply createPlaybackPerfTest_exec|].
    unfold PlaybackPerf_descriptor, perfTest_fields. cbv zeta.
    destruct m; cbn [typeof] in Hu, Hb; try (exfalso; auto; fail);
      split; reflexivity.
Qed.

End GeneratorProperties.


Lemma createPlaybackPerfTest_other_override_witness :
  typeof null <> "undefined" /\
  typeof null <> "boolean" /\
  exists t,
    exec (createPlaybackPerfTest sample_compareResolutions
            (sample_stream "H264" "2160p" 30) (Fin 1) undefined
            shouldStopPlayback defaultTestAssertion null) [] = [t] /\
    mandatory t = mandatory (createTest (name t)).
Proof.
  assert (typeof null <> "undefined") as Hu by discriminate.
  assert (typeof null <> "boolean") as Hb by discriminate.
  split; [exact Hu|]. split; [exact Hb|].
  destruct (createPlaybackPerfTest_other_override sample_compareResolutions
              (sample_stream "H264" "2160p" 30) (Fin 1) undefined
              shouldStopPlayback defaultTestAssertion null [] Hu Hb)
    as (_ & t & Ht & _ & Hm).
  exists t. split; [exact Ht|exact Hm].
Defined.

(** ** The array of the suite *)

Section ArrayProperties.

Variable Media : MediaTable.
Variable compareResolutions : value -> value -> number.
Variable window_MediaSource : bool.
Variable MediaSource_version : string.

(** X4.  The suite returns 178 tests, 2 + 16 * 8 + 6 * 8.  Each of them has a
    title and a [start] function, and its category is told by its position:
    'Media Playback Quality' for the first two, 'Playback Performance' up to
    position 129, 'HFR Playback Performance' from 130 on. *)
Theorem suite_descriptors_complete :
  length (tests (PlaybackperfTest Media compareResolutions window_MediaSource
                   MediaSource_version)) = 178 /\
  forall k t,
    tests (PlaybackperfTest Media compareResolutions window_MediaSource
             MediaSource_version) !! k = Some t ->
    is_Some (title t) /\ is_Some (start t) /\
    category t =
      VString (if (k <? 2)%nat then "Media Playback Quality"
               else if (k <? 130)%nat then "Playback Performance"
               else "HFR Playback Performance").
Proof.
  rewrite tests_structure. split.
  - rewrite !length_app, !length_imap, !length_iterations. reflexivity.
  - intros k t Hk.
    apply lookup_app_Some in Hk as [Hk|[Hle Hk]].
    + destruct k as [|[|k]]; [| |discriminate Hk];
        injection Hk as <-; repeat split; eexists; reflexivity.
    + cbn [length] in Hle, Hk.
      apply lookup_app_Some in Hk as [Hk|[Hle' Hk]].
      * pose proof (lookup_lt_Some _ _ _ Hk) as Hlt.
        rewrite length_imap, length_iterations in Hlt.
        apply list_lookup_imap_Some in Hk as (p & _ & ->).
        destruct (Nat.ltb_spec k 2); [lia|].
        destruct (Nat.ltb_spec k 130); [|lia].
        repeat split; eexists; reflexivity.
      * rewrite length_imap, length_iterations in Hle', Hk.
        apply list_lookup_imap_Some in Hk as (p & _ & ->).
        destruct (Nat.ltb_spec k 2); [lia|].
        destruct (Nat.ltb_spec k 130); [lia|].
        repeat split; eexists; reflexivity.
Qed.

(** X5.  Every test from position 2 on is a PlaybackPerf test built for a stream
    of one of the two format tables and for one of the 8 speeds; its stop
    predicate is [shouldStopPlayback], and its name, its title and its
    [mandatory] flag are those the stream and the speed give: the flag does
    not depend on the speed or on the loop. *)
Theorem suite_PlaybackPerf_tests_determined (k : nat) (t : Test) :
  tests (PlaybackperfTest Media compareResolutions window_MediaSource
           MediaSource_version) !! k = Some t ->
  2 <= k ->
  exists vs sp a,
    vs ∈ mediaFormats Media ++ mediaFormatsHfr Media /\
    sp ∈ playbackSpeeds /\
    start t = Some (PlaybackPerf_start vs sp shouldStopPlayback a) /\
    title t = Some "Playback performance test" /\
    name t =
      "PlaybackPerf." +:+ codec vs +:+ "." +:+
      to_string (get vs "resolution") +:+ to_string (get vs "fps") +:+
      "@" +:+ number_to_string sp +:+ "X" /\
    mandatory t =
      Some (VBool (negb (isOptionalPlayBackPerfStream compareResolutions vs))).
Proof.
  rewrite tests_structure. intros Hk H2.
  apply lookup_app_Some in Hk as [Hk|[_ Hk]];
    [apply lookup_lt_Some in Hk; cbn [length] in Hk; lia|].
  apply lookup_app_Some in Hk as [Hk|[_ Hk]];
    apply list_lookup_imap_Some in Hk as (p & Hp & ->);
    apply lookup_iterations_inv in Hp as (Hp1 & Hp2 & _);
    do 3 eexists;
    (split; [apply elem_of_app|
     split; [apply (list_elem_of_lookup_total_2 playbackSpeeds (fst p)); exact Hp1|
     split; [reflexivity|
     split; [reflexivity|
     split; [apply PlaybackPerf_descriptor_name|reflexivity]]]]]).
  - left. apply list_elem_of_lookup_total_2. exact Hp2.
  - right. apply list_elem_of_lookup_total_2. exact Hp2.
Qed.

End ArrayProperties.

Lemma suite_PlaybackPerf_tests_determined_witness :
  exists t,
    tests sample_suite !! 16 = Some t /\
    2 <= 16 /\
    exists vs sp a,
      vs ∈ mediaFormats sample_Media ++ mediaFormatsHfr sample_Media /\
      sp ∈ playbackSpeeds /\
      start t = Some (PlaybackPerf_start vs sp shouldStopPlayback a) /\
      title t = Some "Playback performance test" /\
      name t =
        "PlaybackPerf." +:+ codec vs +:+ "." +:+
        to_string (get vs "resolution") +:+ to_string (get vs "fps") +:+
        "@" +:+ number_to_string sp +:+ "X" /\
      mandatory t =
        Some (VBool (negb (isOptionalPlayBackPerfStream
                             sample_compareResolutions vs))).
Proof.
  pose proof (sfr_lookup sample_Media sample_compareResolutions true "1.0" 14 0
                (sample_stream "H264" "1440p" 30) (Fin 0.25) eq_refl eq_refl) as H.
  assert (2 <= 16) as H2 by lia.
  eexists. split; [exact H|]. split; [exact H2|].
  apply (suite_PlaybackPerf_tests_determined sample_Media
           sample_compareResolutions true "1.0" 16 _ H H2).
Defined.

(** ** The two assertion functions *)

Lemma defaultTestAssertion_calls (w : World) :
  new_calls defaultTestAssertion w =
  (if (totalDecodedVideoFrames (video w) <=? 0)%Z
   then [runner_fail "UserAgent was unable to render any frames."] else []) ++
  [runner_checkLE (num_of_Z (droppedVideoFrames (video w))) (Fin 1)
     "Total dropped frames"].
Proof.
  unfold new_calls, defaultTestAssertion.
  rewrite exec_seq, assertMaxDroppedFrames_exec, assertAtLeastOneFrameDecoded_exec.
  destruct (totalDecodedVideoFrames (video w) <=? 0)%Z;
    cbn [video calls status app]; rewrite <- ?app_assoc; apply drop_app_length.
Qed.

Lemma HFRHighSpeedPlaybackTestAssertion_calls (w : World) :
  new_calls HFRHighSpeedPlaybackTestAssertion w =
  (if (totalDecodedVideoFrames (video w) <=? 0)%Z
   then [runner_fail "UserAgent was unable to render any frames."] else []) ++
  [runner_checkLE
     (num_div (num_of_Z (droppedVideoFrames (video w)))
              (num_of_Z (totalDecodedVideoFrames (video w))))
     (Fin 0.45) "Total dropped frames / total decoded frames"].
Proof.
  unfold new_calls, HFRHighSpeedPlaybackTestAssertion.
  rewrite exec_seq, assertMaxDroppedFramesRatio_exec,
    assertAtLeastOneFrameDecoded_exec.
  destruct (totalDecodedVideoFrames (video w) <=? 0)%Z;
    cbn [video calls status app]; rewrite <- ?app_assoc; apply drop_app_length.
Qed.

Lemma num_lt_Fin_false (x y : Q) : (y <= x)%Q -> num_lt (Fin x) (Fin y) = false.
Proof.
  intros H. destruct (num_lt (Fin x) (Fin y)) eqn:E; [|reflexivity].
  apply num_lt_Fin in E. exfalso. exact (Qlt_not_le _ _ E H).
Qed.

(** X6.  With the runner's [checkLE] failing when its first argument
    exceeds the second, [defaultTestAssertion] reports a failure exactly
    when no frame was decoded or more than one frame was dropped, and
    [HFRHighSpeedPlaybackTestAssertion] exactly when no frame was decoded or
    the dropped frames are more than 0.45 of the decoded ones. *)
Theorem assertion_functions_verdict (w : World) :
  let decoded := totalDecodedVideoFrames (video w) in
  let dropped := droppedVideoFrames (video w) in
  (existsb reports_failure (new_calls defaultTestAssertion w) = true <->
   (decoded <= 0)%Z \/ (1 < dropped)%Z) /\
  (existsb reports_failure (new_calls HFRHighSpeedPlaybackTestAssertion w) = true <->
   (decoded <= 0)%Z \/
   ((0 < decoded)%Z /\ (0.45 < inject_Z dropped / inject_Z decoded)%Q)).
Proof.
  cbv zeta.
  rewrite defaultTestAssertion_calls, HFRHighSpeedPlaybackTestAssertion_calls.
  destruct (Z.leb_spec (totalDecodedVideoFrames (video w)) 0) as [Hd|Hd];
    cbn [app existsb reports_failure orb].
  - split; split; try reflexivity; intros _; left; exact Hd.
  - rewrite !orb_false_r. unfold checkLE_fails, num_gt.
    rewrite (num_div_of_Z_pos _ _ Hd). split.
    + change (Fin 1) with (num_of_Z 1). rewrite num_lt_of_Z.
      split; [intros H; right; exact H|intros [H|H]; [lia|exact H]].
    + rewrite num_lt_Fin.
      split; [intros H; right; split; assumption|intros [H|[_ H]]; [lia|exact H]].
Qed.

(** X7.  The ratio assertion is not weaker than the strict one on very short
    runs.  From 3 decoded frames on, a run that passes
    [defaultTestAssertion] passes [HFRHighSpeedPlaybackTestAssertion]; with
    1 or 2 decoded frames and 1 dropped frame it passes the first and fails
    the second, 1/1 and 1/2 being more than 0.45. *)
Theorem strict_assertion_and_ratio_assertion (w : World) :
  let decoded := totalDecodedVideoFrames (video w) in
  let dropped := droppedVideoFrames (video w) in
  ((3 <= decoded)%Z ->
   existsb reports_failure (new_calls defaultTestAssertion w) = false ->
   existsb reports_failure (new_calls HFRHighSpeedPlaybackTestAssertion w) = false) /\
  ((decoded = 1 \/ decoded = 2)%Z -> dropped = 1%Z ->
   existsb reports_failure (new_calls defaultTestAssertion w) = false /\
   existsb reports_failure (new_calls HFRHighSpeedPlaybackTestAssertion w) = true).
Proof.
  cbv zeta.
  rewrite defaultTestAssertion_calls, HFRHighSpeedPlaybackTestAssertion_calls.
  split.
  - intros Hdec.
    destruct (Z.leb_spec (totalDecodedVideoFrames (video w)) 0) as [?|Hpos];
      [lia|].
    cbn [app existsb reports_failure orb]. rewrite !orb_false_r.
    unfold checkLE_fails, num_gt. rewrite (num_div_of_Z_pos _ _ Hpos).
    intros Hstrict.
    assert (droppedVideoFrames (video w) <= 1)%Z as Hdrop.
    { destruct (Z.le_gt_cases (droppedVideoFrames (video w)) 1) as [H|H];
        [exact H|].
      apply (num_lt_of_Z 1) in H.
      change (num_of_Z 1) with (Fin 1) in H. congruence. }
    apply num_lt_Fin_false. apply Qle_shift_div_r.
    + change 0%Q with (inject_Z 0). rewrite <- Zlt_Qlt. exact Hpos.
    + unfold Qle, Qmult, inject_Z. cbn [Qnum Qden]. lia.
  - intros Hdec ->. destruct Hdec as [-> | ->]; vm_compute; split; reflexivity.
Qed.

(** ** The callbacks of a run *)

Lemma Target_eqb_refl (t : Target) : Target_eqb t t = true.
Proof. destruct t; reflexivity. Qed.

Section CallbackProperties.
Variable Media : MediaTable.

Lemma dispatch_none (t : Target) (ev : string) (s : Sys) :
  listeners s = [] -> exec (dispatch Media t ev) s = s.
Proof. intros H. unfold dispatch, exec. rewrite H. reflexivity. Qed.

Lemma dispatch_single (t : Target) (ev : string) (s : Sys) (l : Listener) :
  listeners s = [l] -> target l = t -> event l = ev ->
  exec (dispatch Media t ev) s = exec (run_handler Media (lid l) (handler l)) s.
Proof.
  intros Hl <- <-. unfold dispatch, exec. rewrite Hl.
  cbn [List.filter]. rewrite Target_eqb_refl, String.eqb_refl.
  cbn [andb map for_keys]. unfold bind. rewrite Hl. cbn [find].
  rewrite Nat.eqb_refl.
  destruct (run_handler Media (lid l) (handler l) s) as [u s']. reflexivity.
Qed.

Lemma PlaybackPerf_onTimeUpdate_exec (self : nat) (s : Sys)
    (stop : Video -> bool) (a : State World unit) :
  exec (run_handler Media self (PlaybackPerf_onTimeUpdate stop a)) s =
  let w1 := exec updateVideoPerfMetricsStatus (world s) in
  if stop (video (world s))
  then mkSys (exec (call runner_succeed) (exec a (exec video_pause w1)))
         (filter (fun l => lid l <> self) (listeners s))
         (next_id s) (videoSb s) (audioSb s) (uncaught s)
  else mkSys w1 (listeners s) (next_id s) (videoSb s) (audioSb s) (uncaught s).
Proof.
  destruct s as [[[p ct pr hs sup dec drp] st cs] ls nid vsb asb unc].
  run_sys. destruct (stop _); [|reflexivity].
  match goal with |- context [a ?x] => destruct (a x) as [u w'] end.
  reflexivity.
Qed.

Lemma FrameDrop_onTimeUpdate_exec (self : nat) (s : Sys)
    (videoStream videoStream2 : Stream) :
  exec (run_handler Media self (FrameDrop_onTimeUpdate videoStream videoStream2)) s =
  let w1 := exec updateVideoPerfMetricsStatus (world s) in
  if shouldStopPlayback (video (world s))
  then
    let s1 :=
      mkSys (exec assertAtLeastOneFrameDecoded (exec video_pause w1))
        (filter (fun l => lid l <> self) (listeners s))
        (next_id s) (videoSb s) (audioSb s) (uncaught s) in
    if (2 <? droppedVideoFrames (video (world s)))%Z
    then exec (lift (call runner_succeed)) s1
    else if String.eqb (src videoStream2) (src videoStream)
         then exec (lift (call (runner_fail
                  (("UserAgent produced " +:+
                    number_to_string
                      (num_of_Z (droppedVideoFrames (video (world s))))) +:+
                   " dropped frames.")))) s1
         else exec (playVideo Media videoStream2 videoStream2) s1
  else mkSys w1 (listeners s) (next_id s) (videoSb s) (audioSb s) (uncaught s).
Proof.
  destruct s as [[[p ct pr hs sup dec drp] st cs] ls nid vsb asb unc].
  assert (num_gt (num_of_Z drp) (Fin 2) = (2 <? drp)%Z) as Hdrp.
  { destruct (Z.ltb_spec 2 drp) as [H|H].
    - apply (num_gt_of_Z_true drp 2). exact H.
    - apply (num_gt_of_Z_false drp 2). exact H. }
  unfold shouldStopPlayback. run_sys.
  destruct p; run_sys; [reflexivity|].
  destruct (num_ge ct (Fin 15)); run_sys; [|reflexivity].
  destruct (num_le (num_of_Z dec) (Fin 0)); run_sys; rewrite Hdrp;
    destruct (2 <? drp)%Z; run_sys; try reflexivity;
    destruct (String.eqb (src videoStream2) (src videoStream)); reflexivity.
Qed.

Lemma host_advances_exec (time : number) (dec drp : Z) (s : Sys) :
  exec (host_advances time dec drp) s =
  mkSys (mkWorld
           (mkVideo (paused (video (world s))) time
              (playbackRate (video (world s))) (hasSrc (video (world s)))
              (supportsVideoPerformanceMetrics (video (world s))) dec drp)
           (status (world s)) (calls (world s)))
    (listeners s) (next_id s) (videoSb s) (audioSb s) (uncaught s).
Proof. reflexivity. Qed.

Lemma PlaybackPerf_start_exec (s : Sys) (vs : Stream) (rate : number)
    (stop : Video -> bool) (a : State World unit) :
  exec (run_start Media (PlaybackPerf_start vs rate stop a)) s =
  mkSys (mkWorld
           (mkVideo false (currentTime (video (world s))) rate
              (hasSrc (video (world s)))
              (supportsVideoPerformanceMetrics (video (world s)))
              (totalDecodedVideoFrames (video (world s)))
              (droppedVideoFrames (video (world s))))
           (status (world s))
           (calls (world s) ++
            (if supportsVideoPerformanceMetrics (video (world s)) then []
             else [runner_fail unsupported_message]) ++
            [setupMse vs (AAC.AudioNormal (AAC Media))]))
    (listeners s ++
     [mkListener (next_id s) on_video "timeupdate"
        (PlaybackPerf_onTimeUpdate stop a)])
    (S (next_id s)) (videoSb s) (audioSb s) (uncaught s).
Proof.
  destruct s as [[[p ct pr hs sup dec drp] st cs] ls nid vsb asb unc].
  destruct sup; cbn [world video calls supportsVideoPerformanceMetrics];
    [reflexivity|].
  rewrite (app_assoc cs). reflexivity.
Qed.

Lemma FrameDrop_start_exec (s : Sys) (vs1 vs2 : Stream) :
  exec (run_start Media (FrameDrop_start vs1 vs2)) s =
  mkSys (mkWorld
           (mkVideo false (currentTime (video (world s))) (Fin 2)
              (hasSrc (video (world s)))
              (supportsVideoPerformanceMetrics (video (world s)))
              (totalDecodedVideoFrames (video (world s)))
              (droppedVideoFrames (video (world s))))
           (status (world s))
           (calls (world s) ++
            (if supportsVideoPerformanceMetrics (video (world s)) then []
             else [runner_fail unsupported_message]) ++
            [setupMse vs1 (AAC.AudioNormal (AAC Media))]))
    (listeners s ++
     [mkListener (next_id s) on_video "timeupdate"
        (FrameDrop_onTimeUpdate vs1 vs2)])
    (S (next_id s)) (videoSb s) (audioSb s) (uncaught s).
Proof.
  destruct s as [[[p ct pr hs sup dec drp] st cs] ls nid vsb asb unc].
  destruct sup; cbn [world video calls supportsVideoPerformanceMetrics];
    [reflexivity|].
  rewrite (app_assoc cs). reflexivity.
Qed.

Lemma num_le_of_Z_0 (z : Z) : num_le (num_of_Z z) (Fin 0) = (z <=? 0)%Z.
Proof.
  destruct (Z.leb_spec z 0) as [H|H].
  - apply (num_le_of_Z z 0). exact H.
  - apply (num_le_of_Z_false z 0). exact H.
Qed.

(** X8.  [start] of a PlaybackPerf test and of the FrameDrop test builds
    the [PerfTestUtil_] first: on a video without the performance metrics
    the first call made is the [runner.fail] of its constructor, before MSE
    is set up.  On a video with the metrics, [start] makes the one call
    [setupMse] for the stream, sets the playback rate (the rate of the test,
    2 for FrameDrop), registers one 'timeupdate' callback under a fresh
    identity and leaves the video playing. *)
Theorem start_reports_unsupported_first
    (s : Sys) (vs : Stream) (rate : number) (stop : Video -> bool)
    (a : State World unit) (vs1 vs2 : Stream) :
  let s1 := exec (run_start Media (PlaybackPerf_start vs rate stop a)) s in
  let s2 := exec (run_start Media (FrameDrop_start vs1 vs2)) s in
  (supportsVideoPerformanceMetrics (video (world s)) = false ->
   head (sys_new_calls (run_start Media (PlaybackPerf_start vs rate stop a)) s) =
     Some (runner_fail unsupported_message) /\
   head (sys_new_calls (run_start Media (FrameDrop_start vs1 vs2)) s) =
     Some (runner_fail unsupported_message)) /\
  (supportsVideoPerformanceMetrics (video (world s)) = true ->
   (sys_new_calls (run_start Media (PlaybackPerf_start vs rate stop a)) s =
      [setupMse vs (AAC.AudioNormal (AAC Media))] /\
    paused (video (world s1)) = false /\
    playbackRate (video (world s1)) = rate /\
    listeners s1 =
      listeners s ++
      [mkListener (next_id s) on_video "timeupdate"
         (PlaybackPerf_onTimeUpdate stop a)]) /\
   (sys_new_calls (run_start Media (FrameDrop_start vs1 vs2)) s =
      [setupMse vs1 (AAC.AudioNormal (AAC Media))] /\
    paused (video (world s2)) = false /\
    playbackRate (video (world s2)) = Fin 2 /\
    listeners s2 =
      listeners s ++
      [mkListener (next_id s) on_video "timeupdate"
         (FrameDrop_onTimeUpdate vs1 vs2)])).
Proof.
  cbv zeta. unfold sys_new_calls.
  rewrite PlaybackPerf_start_exec, FrameDrop_start_exec.
  cbn [world video calls paused playbackRate listeners].
  rewrite !drop_app_length.
  split; intros ->; cbn [app head]; repeat split.
Qed.

(** X9.  Until the stop condition holds, a 'timeupdate' callback of any of the
    three tests writes the status '(dropped/decoded)' and calls
    [runner.updateStatus], and nothing else: the video, the callbacks and
    the other calls are as before.  So a video that stays paused, or never
    reaches 15 seconds, leaves the verdict to the timeout of the harness. *)
Theorem callbacks_before_stop_only_update_status (self : nat) (s : Sys) :
  let updated :=
    mkSys (mkWorld (video (world s))
             (Some ("(" +:+
                    number_to_string
                      (num_of_Z (droppedVideoFrames (video (world s)))) +:+
                    "/" +:+
                    number_to_string
                      (num_of_Z (totalDecodedVideoFrames (video (world s)))) +:+
                    ")"))
             (calls (world s) ++ [runner_updateStatus]))
      (listeners s) (next_id s) (videoSb s) (audioSb s) (uncaught s) in
  (forall stop a, stop (video (world s)) = false ->
     exec (run_handler Media self (PlaybackPerf_onTimeUpdate stop a)) s = updated) /\
  (forall vs vs2, shouldStopPlayback (video (world s)) = false ->
     exec (run_handler Media self (FrameDrop_onTimeUpdate vs vs2)) s = updated) /\
  exec (run_handler Media self TotalVideoFrames_timeupdate) s = updated.
Proof.
  cbv zeta. split; [|split].
  - intros stop a H. rewrite PlaybackPerf_onTimeUpdate_exec. cbv zeta.
    rewrite H. reflexivity.
  - intros vs vs2 H. rewrite FrameDrop_onTimeUpdate_exec. cbv zeta.
    rewrite H. reflexivity.
  - reflexivity.
Qed.

(** The calls of [onTimeUpdate] of a PlaybackPerf test once the stop
    predicate holds, for the two assertion functions of the suite. *)
Lemma PlaybackPerf_onTimeUpdate_stopped (self : nat) (s : Sys)
    (stop : Video -> bool) :
  stop (video (world s)) = true ->
  let decoded := totalDecodedVideoFrames (video (world s)) in
  let dropped := droppedVideoFrames (video (world s)) in
  let failure :=
    if (decoded <=? 0)%Z
    then [runner_fail "UserAgent was unable to render any frames."] else [] in
  (let run := run_handler Media self
                (PlaybackPerf_onTimeUpdate stop defaultTestAssertion) in
   sys_new_calls run s =
     [runner_updateStatus] ++ failure ++
     [runner_checkLE (num_of_Z dropped) (Fin 1) "Total dropped frames";
      runner_succeed] /\
   paused (video (world (exec run s))) = true) /\
  (let run := run_handler Media self
                (PlaybackPerf_onTimeUpdate stop
                   HFRHighSpeedPlaybackTestAssertion) in
   sys_new_calls run s =
     [runner_updateStatus] ++ failure ++
     [runner_checkLE (num_div (num_of_Z dropped) (num_of_Z decoded)) (Fin 0.45)
        "Total dropped frames / total decoded frames";
      runner_succeed] /\
   paused (video (world (exec run s))) = true).
Proof.
  intros Hstop. cbv zeta. unfold sys_new_calls. split.
  - destruct s as [[[p ct pr hs sup dec drp] st cs] ls nid vsb asb unc].
    cbn [world video totalDecodedVideoFrames droppedVideoFrames calls] in *.
    run_asserts. rewrite Hstop. run_asserts. rewrite num_le_of_Z_0.
    destruct (dec <=? 0)%Z; run_asserts; cbn [app];
      (split; [new_calls_done|reflexivity]).
  - destruct s as [[[p ct pr hs sup dec drp] st cs] ls nid vsb asb unc].
    cbn [world video totalDecodedVideoFrames droppedVideoFrames calls] in *.
    run_asserts. rewrite Hstop. run_asserts. rewrite num_le_of_Z_0.
    destruct (dec <=? 0)%Z; run_asserts; cbn [app];
      (split; [new_calls_done|reflexivity]).
Qed.

(** X10.  Once the stop predicate holds, a PlaybackPerf test passes without
    a reported failure exactly when a frame was decoded and the dropped
    frames are within the bound of its assertion function: at most 1 for
    [defaultTestAssertion], at most 0.45 of the decoded frames for
    [HFRHighSpeedPlaybackTestAssertion] (the runner's [checkLE] failing when
    its first argument exceeds the second).  On such a run [onTimeUpdate]
    makes the three calls [updateStatus], [checkLE], [succeed], removes
    itself and leaves the video paused. *)
Theorem PlaybackPerf_callback_clean_pass (self : nat) (s : Sys)
    (stop : Video -> bool) :
  stop (video (world s)) = true ->
  let decoded := totalDecodedVideoFrames (video (world s)) in
  let dropped := droppedVideoFrames (video (world s)) in
  (let run := run_handler Media self
                (PlaybackPerf_onTimeUpdate stop defaultTestAssertion) in
   (existsb reports_failure (sys_new_calls run s) = false <->
    (0 < decoded)%Z /\ (dropped <= 1)%Z) /\
   ((0 < decoded)%Z -> (dropped <= 1)%Z ->
    sys_new_calls run s =
      [runner_updateStatus;
       runner_checkLE (num_of_Z dropped) (Fin 1) "Total dropped frames";
       runner_succeed] /\
    paused (video (world (exec run s))) = true /\
    listeners (exec run s) = filter (fun l => lid l <> self) (listeners s))) /\
  (let run := run_handler Media self
                (PlaybackPerf_onTimeUpdate stop
                   HFRHighSpeedPlaybackTestAssertion) in
   (existsb reports_failure (sys_new_calls run s) = false <->
    (0 < decoded)%Z /\ (inject_Z dropped / inject_Z decoded <= 0.45)%Q) /\
   ((0 < decoded)%Z -> (inject_Z dropped / inject_Z decoded <= 0.45)%Q ->
    sys_new_calls run s =
      [runner_updateStatus;
       runner_checkLE (Fin (inject_Z dropped / inject_Z decoded)) (Fin 0.45)
         "Total dropped frames / total decoded frames";
       runner_succeed] /\
    paused (video (world (exec run s))) = true /\
    listeners (exec run s) = filter (fun l => lid l <> self) (listeners s))).
Proof.
  intros Hstop. cbv zeta.
  destruct (PlaybackPerf_onTimeUpdate_stopped self s stop Hstop)
    as [[Hd Hdp] [Hh Hhp]].
  rewrite Hd, Hh, !PlaybackPerf_onTimeUpdate_exec.
  rewrite PlaybackPerf_onTimeUpdate_exec in Hdp, Hhp.
  cbv zeta in *. rewrite Hstop in *. cbn [listeners].
  destruct (Z.leb_spec (totalDecodedVideoFrames (video (world s))) 0) as [Hle|Hpos];
    cbn [app existsb reports_failure orb].
  - split; (split; [split; [discriminate|intros [? _]; exfalso; lia]
                   |intros ?; exfalso; lia]).
  - rewrite !orb_false_r. unfold checkLE_fails, num_gt.
    rewrite (num_div_of_Z_pos _ _ Hpos). split.
    + split.
      * split.
        -- intros H. split; [exact Hpos|].
           destruct (Z.le_gt_cases (droppedVideoFrames (video (world s))) 1)
             as [Hle|Hgt]; [exact Hle|].
           apply (num_lt_of_Z 1) in Hgt.
           change (num_of_Z 1) with (Fin 1) in Hgt. congruence.
        -- intros [_ Hle]. change (Fin 1) with (num_of_Z 1).
           apply (num_gt_of_Z_false _ 1). exact Hle.
      * intros _ _. repeat split. exact Hdp.
    + split.
      * split.
        -- intros H. split; [exact Hpos|].
           apply Qnot_lt_le. intros Hlt. apply num_lt_Fin in Hlt. congruence.
        -- intros [_ Hle]. apply num_lt_Fin_false. exact Hle.
      * intros _ _. repeat split. exact Hhp.
Qed.

Lemma filter_out_listener (id : nat) (t : Target) (ev : string) (h : Handler) :
  filter (fun l => lid l <> id) [mkListener id t ev h] = [].
Proof.
  rewrite filter_cons. cbn [lid].
  destruct (decide (id <> id)) as [Hne|_]; [exfalso; apply Hne; reflexivity|].
  reflexivity.
Qed.

Lemma playVideo_exec (s : Sys) (vs2 vs : Stream) :
  exec (playVideo Media vs2 vs) s =
  mkSys (mkWorld
           (mkVideo false (currentTime (video (world s))) (Fin 2)
              (hasSrc (video (world s)))
              (supportsVideoPerformanceMetrics (video (world s)))
              (totalDecodedVideoFrames (video (world s)))
              (droppedVideoFrames (video (world s))))
           (status (world s))
           (calls (world s) ++ [setupMse vs (AAC.AudioNormal (AAC Media))]))
    (listeners s ++
     [mkListener (next_id s) on_video "timeupdate"
        (FrameDrop_onTimeUpdate vs vs2)])
    (S (next_id s)) (videoSb s) (audioSb s) (uncaught s).
Proof. reflexivity. Qed.

Lemma shouldStopPlayback_playing (v : Video) :
  paused v = false -> num_ge (currentTime v) (Fin 15) = true ->
  shouldStopPlayback v = true.
Proof. intros Hp Ht. unfold shouldStopPlayback. rewrite Hp, Ht. reflexivity. Qed.

(** X11.  A PlaybackPerf test reaches its verdict once.  After [start], when the
    video has played to 15 seconds or more, the first 'timeupdate' runs the
    assertion, ends on [runner.succeed] and leaves no callback registered;
    any later 'timeupdate', whatever the video has become, changes
    nothing. *)
Theorem PlaybackPerf_callback_runs_once
    (v v' : Video) (vs : Stream) (rate : number) (a : State World unit)
    (time : number) (decoded dropped : Z) :
  num_ge time (Fin 15) = true ->
  let s1 :=
    exec
      (run_start Media (PlaybackPerf_start vs rate shouldStopPlayback a) ;;
       host_advances time decoded dropped ;;
       dispatch Media on_video "timeupdate")
      (initial_sys v) in
  listeners s1 = [] /\
  last (calls (world s1)) = Some runner_succeed /\
  exec (host_sets_video v' ;; dispatch Media on_video "timeupdate") s1 =
  exec (host_sets_video v') s1.
Proof.
  intros Ht. cbv zeta. rewrite !exec_seq.
  rewrite PlaybackPerf_start_exec, host_advances_exec.
  cbn [initial_sys world video listeners next_id videoSb audioSb uncaught
       status calls paused currentTime playbackRate hasSrc
       supportsVideoPerformanceMetrics app].
  erewrite dispatch_single by reflexivity.
  cbn [lid handler]. rewrite PlaybackPerf_onTimeUpdate_exec. cbv zeta.
  cbn [world video listeners next_id videoSb audioSb uncaught].
  rewrite !shouldStopPlayback_playing by (try reflexivity; exact Ht).
  rewrite !filter_out_listener.
  split; [reflexivity|]. split.
  - cbn [world]. unfold call at 1, exec at 1. cbn [snd calls]. apply last_snoc.
  - apply dispatch_none. reflexivity.
Qed.

(** X12.  On a stream that has the [src] of the fallback stream, [onTimeUpdate]
    of the FrameDrop test never plays another stream: at the stop condition
    it removes itself, leaves the video paused and ends on [runner.succeed]
    with more than 2 dropped frames, on [runner.fail] with the count in the
    message otherwise.  The test plays two streams at most. *)
Theorem FrameDrop_fallback_stream_ends_test
    (self : nat) (s : Sys) (videoStream videoStream2 : Stream) :
  src videoStream2 = src videoStream ->
  shouldStopPlayback (video (world s)) = true ->
  let dropped := droppedVideoFrames (video (world s)) in
  let run :=
    run_handler Media self (FrameDrop_onTimeUpdate videoStream videoStream2) in
  existsb is_setupMse (sys_new_calls run s) = false /\
  last (calls (world (exec run s))) =
    Some (if (2 <? dropped)%Z then runner_succeed
          else runner_fail
                 (("UserAgent produced " +:+ number_to_string (num_of_Z dropped))
                  +:+ " dropped frames.")) /\
  listeners (exec run s) = filter (fun l => lid l <> self) (listeners s) /\
  paused (video (world (exec run s))) = true.
Proof.
  intros Hsrc Hstop. cbv zeta.
  pose proof Hstop as Hstop'. unfold shouldStopPlayback in Hstop'.
  apply andb_true_iff in Hstop' as [Hp Ht]. apply negb_true_iff in Hp.
  rewrite (FrameDrop_onTimeUpdate_stopped Media self s _ _ Hp Ht).
  rewrite FrameDrop_onTimeUpdate_exec. cbv zeta. rewrite Hstop.
  apply String.eqb_eq in Hsrc. rewrite Hsrc.
  rewrite assertAtLeastOneFrameDecoded_exec.
  destruct s as [[[p ct pr hs sup dec drp] st cs] ls nid vsb asb unc].
  cbn [world video totalDecodedVideoFrames droppedVideoFrames exec
       updateVideoPerfMetricsStatus video_pause set_video bind snd fst
       getTotalDroppedFrames getTotalDecodedFrames set_status call
       listeners next_id videoSb audioSb uncaught status calls paused].
  destruct (dec <=? 0)%Z; destruct (2 <? drp)%Z;
    cbn [app existsb is_setupMse orb lift exec call snd world video calls
         status listeners paused];
    repeat split; rewrite ?app_assoc; apply last_snoc.
Qed.

(** X13.  The whole run of the FrameDrop test when the first stream drops too few
    frames.  The first stream, which is not the fallback, reaches 15 seconds
    with a decoded frame and at most 2 dropped frames; the fallback stream
    then reaches 15 seconds with a decoded frame.  The calls are: MSE set up
    for the first stream, a status update, MSE set up for the fallback
    stream, a status update, and [succeed] if the fallback dropped more than
    2 frames, [fail] otherwise; no callback is left and the video is
    paused. *)
Theorem FrameDrop_two_streams_run
    (v : Video) (vs1 vs2 : Stream) (t1 t2 : number)
    (decoded1 dropped1 decoded2 dropped2 : Z) :
  src vs2 <> src vs1 ->
  num_ge t1 (Fin 15) = true ->
  num_ge t2 (Fin 15) = true ->
  (0 < decoded1)%Z -> (dropped1 <= 2)%Z -> (0 < decoded2)%Z ->
  let s :=
    exec
      (run_start Media (FrameDrop_start vs1 vs2) ;;
       host_advances t1 decoded1 dropped1 ;;
       dispatch Media on_video "timeupdate" ;;
       host_advances t2 decoded2 dropped2 ;;
       dispatch Media on_video "timeupdate")
      (initial_sys v) in
  calls (world s) =
    (if supportsVideoPerformanceMetrics v then []
     else [runner_fail unsupported_message]) ++
    [setupMse vs1 (AAC.AudioNormal (AAC Media));
     runner_updateStatus;
     setupMse vs2 (AAC.AudioNormal (AAC Media));
     runner_updateStatus;
     if (2 <? dropped2)%Z then runner_succeed
     else runner_fail
            (("UserAgent produced " +:+ number_to_string (num_of_Z dropped2))
             +:+ " dropped frames.")] /\
  listeners s = [] /\
  paused (video (world s)) = true.
Proof.
  intros Hsrc Ht1 Ht2 Hdec1 Hdrp1 Hdec2. cbv zeta. rewrite !exec_seq.
  rewrite FrameDrop_start_exec, (host_advances_exec t1).
  cbn [initial_sys world video listeners next_id videoSb audioSb uncaught
       status calls paused currentTime playbackRate hasSrc
       supportsVideoPerformanceMetrics app].
  erewrite (dispatch_single on_video "timeupdate"
              (mkSys (mkWorld (mkVideo _ t1 _ _ _ _ _) _ _) _ _ _ _ _))
    by reflexivity.
  cbn [lid handler]. rewrite FrameDrop_onTimeUpdate_exec. cbv zeta.
  cbn [world video listeners next_id videoSb audioSb uncaught
       droppedVideoFrames].
  rewrite !shouldStopPlayback_playing by (try reflexivity; exact Ht1).
  apply String.eqb_neq in Hsrc. rewrite Hsrc.
  apply Z.ltb_ge in Hdrp1. rewrite Hdrp1.
  rewrite filter_out_listener, playVideo_exec.
  rewrite assertAtLeastOneFrameDecoded_exec.
  cbn [world video totalDecodedVideoFrames droppedVideoFrames exec
       updateVideoPerfMetricsStatus video_pause set_video bind snd fst
       getTotalDroppedFrames getTotalDecodedFrames set_status call
       listeners next_id videoSb audioSb uncaught status calls paused
       currentTime playbackRate hasSrc supportsVideoPerformanceMetrics app].
  apply Z.leb_gt in Hdec1. rewrite Hdec1.
  rewrite host_advances_exec.
  cbn [world video listeners next_id videoSb audioSb uncaught
       status calls paused currentTime playbackRate hasSrc
       supportsVideoPerformanceMetrics].
  erewrite dispatch_single by reflexivity.
  cbn [lid handler]. rewrite FrameDrop_onTimeUpdate_exec. cbv zeta.
  cbn [world video listeners next_id videoSb audioSb uncaught
       droppedVideoFrames].
  rewrite !shouldStopPlayback_playing by (try reflexivity; exact Ht2).
  rewrite String.eqb_refl, filter_out_listener.
  rewrite assertAtLeastOneFrameDecoded_exec.
  cbn [world video totalDecodedVideoFrames droppedVideoFrames exec
       updateVideoPerfMetricsStatus video_pause set_video bind snd fst
       getTotalDroppedFrames getTotalDecodedFrames set_status call
       listeners next_id videoSb audioSb uncaught status calls paused
       currentTime playbackRate hasSrc supportsVideoPerformanceMetrics].
  apply Z.leb_gt in Hdec2. rewrite Hdec2.
  destruct (2 <? dropped2)%Z;
    cbn [lift exec call snd world video calls status listeners paused];
    rewrite <- !app_assoc; repeat split.
Qed.
End CallbackProperties.

(** ** The order of events in the TotalVideoFrames test *)

Section TotalVideoFramesProperties.

Variable Media : MediaTable.

(** X14.  [start] of the TotalVideoFrames test creates both requests and sends the
    audio one only.  The two source buffers exist only once 'sourceopen' has
    fired: a request that loads before that makes its callback throw on the
    missing buffer, before any call, so that an audio callback run too early
    never sends the video request. *)
Theorem TotalVideoFrames_load_before_sourceopen
    (v : Video) (videoStream : Stream) (frames : number) :
  let audioStream := AAC.Audio1MB (AAC Media) in
  let s :=
    exec (run_start Media (TotalVideoFrames_start videoStream frames))
      (initial_sys v) in
  calls (world s) =
    [new_MediaSource] ++
    (if supportsVideoPerformanceMetrics v then []
     else [runner_fail unsupported_message]) ++
    [URL_createObjectURL;
     XHRManager_createRequest (src videoStream) None;
     XHRManager_createRequest (src audioStream) (Some (Fin 0, Fin 131100));
     xhr_send (src audioStream)] /\
  (let s' := exec (dispatch Media on_audioXhr "load") s in
   uncaught s' = ["TypeError"] /\ calls (world s') = calls (world s) /\
   listeners s' = listeners s) /\
  (let s' := exec (dispatch Media on_videoXhr "load") s in
   uncaught s' = ["TypeError"] /\ calls (world s') = calls (world s) /\
   listeners s' = listeners s /\ paused (video (world s')) = paused v).
Proof.
  destruct v as [p ct pr hs sup dec drp].
  destruct sup; vm_compute; repeat split.
Qed.

(** X15.  In the order sourceopen, audio loaded, video loaded, the host calls are:
    the two source buffers added, the audio appended, the video request
    sent, the video appended; the video is then playing.  Until 'updateend'
    has fired on the video buffer no 'ended' callback exists: an 'ended'
    event makes no call, and a 'timeupdate' only updates the status.
    'updateend' ends the stream, and only then does 'ended' reach
    [checkEq]. *)
Theorem TotalVideoFrames_ended_needs_updateend
    (v : Video) (videoStream : Stream) (frames : number) :
  let audioStream := AAC.Audio1MB (AAC Media) in
  let s0 :=
    exec (run_start Media (TotalVideoFrames_start videoStream frames))
      (initial_sys v) in
  let s :=
    exec
      (dispatch Media on_mediaSource "sourceopen" ;;
       dispatch Media on_audioXhr "load" ;;
       dispatch Media on_videoXhr "load")
      s0 in
  calls (world s) =
    calls (world s0) ++
    [ms_addSourceBuffer (mimetype videoStream);
     ms_addSourceBuffer (mimetype audioStream);
     sb_appendBuffer (mimetype audioStream);
     xhr_send (src videoStream);
     sb_appendBuffer (mimetype videoStream)] /\
  uncaught s = [] /\
  paused (video (world s)) = false /\
  sys_new_calls (dispatch Media on_video "ended") s = [] /\
  sys_new_calls (dispatch Media on_video "timeupdate") s = [runner_updateStatus] /\
  sys_new_calls (dispatch Media on_videoSb "updateend") s = [ms_endOfStream] /\
  sys_new_calls
    (dispatch Media on_videoSb "updateend" ;; dispatch Media on_video "ended") s =
    [ms_endOfStream;
     runner_checkEq (num_of_Z (totalDecodedVideoFrames v)) frames
       "playbackQuality.totalVideoFrames";
     runner_succeed].
Proof.
  destruct v as [p ct pr hs sup dec drp].
  destruct sup; vm_compute; repeat split.
Qed.

End TotalVideoFramesProperties.

(** ** The callbacks on the concrete table *)

Lemma start_reports_unsupported_first_witness :
  let v := mkVideo true (Fin 0) (Fin 1) false false 0 0 in
  supportsVideoPerformanceMetrics (video (world (initial_sys v))) = false /\
  head (sys_new_calls
          (run_start sample_Media
             (PlaybackPerf_start (sample_stream "VP9" "720p" 30) (Fin 1.5)
                shouldStopPlayback defaultTestAssertion))
          (initial_sys v)) =
    Some (runner_fail unsupported_message) /\
  head (sys_new_calls
          (run_start sample_Media
             (FrameDrop_start (sample_stream "H264" "1080p" 60)
                (sample_stream "VP9" "2160p" 60)))
          (initial_sys v)) =
    Some (runner_fail unsupported_message).
Proof.
  cbv zeta.
  assert (supportsVideoPerformanceMetrics
            (video (world (initial_sys
               (mkVideo true (Fin 0) (Fin 1) false false 0 0)))) = false) as H
    by reflexivity.
  split; [exact H|].
  destruct (start_reports_unsupported_first sample_Media
              (initial_sys (mkVideo true (Fin 0) (Fin 1) false false 0 0))
              (sample_stream "VP9" "720p" 30) (Fin 1.5) shouldStopPlayback
              defaultTestAssertion (sample_stream "H264" "1080p" 60)
              (sample_stream "VP9" "2160p" 60)) as [Hu _].
  exact (Hu H).
Defined.

Lemma PlaybackPerf_callback_clean_pass_witness :
  let s :=
    exec
      (run_start sample_Media
         (PlaybackPerf_start (sample_stream "VP9" "720p" 30) (Fin 1)
            shouldStopPlayback defaultTestAssertion) ;;
       host_advances (Fin 15) 100 1)
      (initial_sys (sample_video true 0 0 0)) in
  shouldStopPlayback (video (world s)) = true /\
  sys_new_calls
    (run_handler sample_Media 0
       (PlaybackPerf_onTimeUpdate shouldStopPlayback defaultTestAssertion)) s =
  [runner_updateStatus;
   runner_checkLE (num_of_Z 1) (Fin 1) "Total dropped frames";
   runner_succeed].
Proof.
  cbv zeta.
  assert (shouldStopPlayback
            (video (world
               (exec
                  (run_start sample_Media
                     (PlaybackPerf_start (sample_stream "VP9" "720p" 30) (Fin 1)
                        shouldStopPlayback defaultTestAssertion) ;;
                   host_advances (Fin 15) 100 1)
                  (initial_sys (sample_video true 0 0 0))))) = true) as H
    by reflexivity.
  split; [exact H|].
  destruct (PlaybackPerf_callback_clean_pass sample_Media 0 _
              shouldStopPlayback H) as ((_ & Hpass) & _).
  apply Hpass; reflexivity.
Defined.

Lemma PlaybackPerf_callback_runs_once_witness :
  num_ge (Fin 16) (Fin 15) = true /\
  listeners
    (exec
       (run_start sample_Media
          (PlaybackPerf_start (sample_stream "VP9" "720p" 30) (Fin 1.5)
             shouldStopPlayback defaultTestAssertion) ;;
        host_advances (Fin 16) 100 0 ;;
        dispatch sample_Media on_video "timeupdate")
       (initial_sys (sample_video true 0 0 0))) = [].
Proof.
  assert (num_ge (Fin 16) (Fin 15) = true) as H by reflexivity.
  split; [exact H|].
  destruct (PlaybackPerf_callback_runs_once sample_Media
              (sample_video true 0 0 0) (sample_video true 0 0 0)
              (sample_stream "VP9" "720p" 30) (Fin 1.5) defaultTestAssertion
              (Fin 16) 100 0 H) as (Hl & _).
  exact Hl.
Defined.

Lemma FrameDrop_fallback_stream_ends_test_witness :
  let vs2 := VP9.Webgl2160p60fps (VP9 sample_Media) in
  let s := FrameDrop_after_15s 100 1 in
  src vs2 = src vs2 /\
  shouldStopPlayback (video (world s)) = true /\
  last (calls (world (exec (run_handler sample_Media 0
                              (FrameDrop_onTimeUpdate vs2 vs2)) s))) =
  Some (runner_fail "UserAgent produced 1 dropped frames.").
Proof.
  cbv zeta.
  assert (shouldStopPlayback (video (world (FrameDrop_after_15s 100 1))) = true)
    as H by reflexivity.
  split; [reflexivity|]. split; [exact H|].
  destruct (FrameDrop_fallback_stream_ends_test sample_Media 0
              (FrameDrop_after_15s 100 1)
              (VP9.Webgl2160p60fps (VP9 sample_Media))
              (VP9.Webgl2160p60fps (VP9 sample_Media)) eq_refl H)
    as (_ & Hlast & _).
  rewrite Hlast. vm_compute. reflexivity.
Defined.

Lemma FrameDrop_two_streams_run_witness :
  let vs1 := H264.Webgl1080p60fps (H264 sample_Media) in
  let vs2 := VP9.Webgl2160p60fps (VP9 sample_Media) in
  src vs2 <> src vs1 /\
  num_ge (Fin 15) (Fin 15) = true /\
  num_ge (Fin 16) (Fin 15) = true /\
  (0 < 100)%Z /\ (1 <= 2)%Z /\ (0 < 200)%Z /\
  listeners
    (exec
       (run_start sample_Media (FrameDrop_start vs1 vs2) ;;
        host_advances (Fin 15) 100 1 ;;
        dispatch sample_Media on_video "timeupdate" ;;
        host_advances (Fin 16) 200 7 ;;
        dispatch sample_Media on_video "timeupdate")
       (initial_sys (sample_video true 0 0 0))) = [].
Proof.
  cbv zeta.
  assert (src (VP9.Webgl2160p60fps (VP9 sample_Media)) <>
          src (H264.Webgl1080p60fps (H264 sample_Media))) as Hsrc
    by (vm_compute; discriminate).
  assert (num_ge (Fin 15) (Fin 15) = true) as H1 by reflexivity.
  assert (num_ge (Fin 16) (Fin 15) = true) as H2 by reflexivity.
  assert (0 < 100)%Z as H3 by lia.
  assert (1 <= 2)%Z as H4 by lia.
  assert (0 < 200)%Z as H5 by lia.
  repeat (split; [assumption|]).
  destruct (FrameDrop_two_streams_run sample_Media (sample_video true 0 0 0)
              (H264.Webgl1080p60fps (H264 sample_Media))
              (VP9.Webgl2160p60fps (VP9 sample_Media))
              (Fin 15) (Fin 16) 100 1 200 7 Hsrc H1 H2 H3 H4 H5)
    as (_ & Hl & _).
  exact Hl.
Defined.
